(** * Nigerian History AI: the chat client's streaming protocol consumer

    A shallow embedding of the TypeScript client of the question-answering
    service: [lib/api.ts] (both the axios variant with [askQuestion] and the
    fetch variant with [askQuestionStream]), [hooks/useChat.ts] (both variants
    of [sendMessage]) and the types of [types/index.ts] they use.

    Conventions of the embedding.
    - A JavaScript string is a [string]: a sequence of code units, restricted to
      the code units below 256.
    - A promise that is awaited, and any expression that may throw, is a
      [Completion]: it completes normally with a value or abruptly with an
      [Error].
    - Code with mutable variables and callbacks runs in the [Eff] monad over the
      function's frame (its [let] variables and the state the callbacks act on).
    - A [Date] is the number of milliseconds since the epoch, in [Z].
    - [JSON.parse] belongs to the platform: the consumer is parameterised by it.
    - A call of [sendMessage] runs to its end before the hook is used again.
*)

From Stdlib Require Import String Ascii List ZArith Bool Lia DecimalString.
From Stdlib Require QArith_base DecimalPos DecimalZ.
Import ListNotations.

Set Implicit Arguments.

(* ================================================================== *)
(** * JavaScript primitives *)
(* ================================================================== *)

Module Js.

(** [new Error(message)]; only [message] is ever read by the client. *)
Record Error : Type := mkError { message : string }.

Inductive Completion (A : Type) : Type :=
| Normal (value : A)
| Throw (error : Error).
Arguments Normal {A} value.
Arguments Throw {A} error.

Definition Date : Type := Z.

(** [WhiteSpace] and [LineTerminator] code units below 256: TAB, LF, VT, FF,
    CR, SP and NBSP.  These are what [String.prototype.trim] strips. *)
Definition isWhiteSpace (c : ascii) : bool :=
  match nat_of_ascii c with
  | 9 | 10 | 11 | 12 | 13 | 32 | 160 => true
  | _ => false
  end.

Fixpoint trimStart (s : string) : string :=
  match s with
  | EmptyString => EmptyString
  | String c rest => if isWhiteSpace c then trimStart rest else s
  end.

Fixpoint trimEnd (s : string) : string :=
  match s with
  | EmptyString => EmptyString
  | String c rest =>
      match trimEnd rest with
      | EmptyString => if isWhiteSpace c then EmptyString else String c EmptyString
      | kept => String c kept
      end
  end.

(** [s.trim()] *)
Definition trim (s : string) : string := trimEnd (trimStart s).

(** [s.startsWith(p)] *)
Fixpoint startsWith (s p : string) : bool :=
  match p, s with
  | EmptyString, _ => true
  | String _ _, EmptyString => false
  | String b p', String a s' => Ascii.eqb a b && startsWith s' p'
  end.

(** [s.substring(n)]: [s] without its first [n] code units. *)
Fixpoint substring (s : string) (n : nat) : string :=
  match n, s with
  | O, _ => s
  | S _, EmptyString => EmptyString
  | S n', String _ rest => substring rest n'
  end.

(** [s.split(sep)] for a one-character separator, as the non-empty list of
    the first field and the remaining ones. *)
Fixpoint split_fields (sep : ascii) (s : string) : string * list string :=
  match s with
  | EmptyString => (EmptyString, [])
  | String c rest =>
      let (field, fields) := split_fields sep rest in
      if Ascii.eqb c sep then (EmptyString, field :: fields)
      else (String c field, fields)
  end.

Definition split (s : string) (sep : ascii) : list string :=
  let (field, fields) := split_fields sep s in field :: fields.

(** [a || b] on strings: the empty string is falsy. *)
Definition or_else (a b : string) : string :=
  if String.eqb a EmptyString then b else a.

(** [String(n)] for an integral number, as in a template literal. *)
Definition Number_toString (n : Z) : string :=
  NilZero.string_of_int (Z.to_int n).

(** ['\n'] *)
Definition LF : ascii := "010"%char.

End Js.

(* ================================================================== *)
(** * types/index.ts *)
(* ================================================================== *)

Module Message.

Inductive MessageType : Type := user | assistant.

(** [interface Message].  Optional members are [option]s.  [source] is not
    declared by the interface: it is the property that the streaming hook's
    [onStreamUpdate] writes next to [sources]. *)
Record t : Type := make {
  id : string;
  type : MessageType;
  content : string;
  timestamp : Js.Date;
  sources : option (list string);
  isLoading : option bool;
  error : option string;
  source : option (list string)
}.

End Message.

Module QuestionResponse.

(** [interface QuestionResponse], for a response whose data has this shape.
    The interface declares the two counts as [number]; the record holds the
    integers among them, and no code under the hooks or the page reads the
    counts.  [response_time_ms] is the rational that the JSON number
    denotes. *)
Record t : Type := make {
  question : string;
  answer : string;
  sources : list string;
  relevant_chunks_found : Z;
  context_chunks_used : Z;
  timestamp : string;
  response_time_ms : QArith_base.Q
}.

End QuestionResponse.

Module ApiError.

(** [interface ApiError]; [detail] is read through [data?.detail], so it may
    be missing. *)
Record t : Type := make {
  detail : option string;
  status_code : Z
}.

End ApiError.

(* ================================================================== *)
(** * lib/api.ts, axios variant: [askQuestion] *)
(* ================================================================== *)

Module Api.
Import Js.

Local Open Scope string_scope.

(** What axios hands to the interceptors: a response, or an [AxiosError]
    whose [response] is set when the server answered with an error status
    and whose [request] is set when the request was sent at all. *)
Record ErrorResponse : Type := mkErrorResponse {
  status : Z;
  data : option ApiError.t
}.

Record AxiosError : Type := mkAxiosError {
  response : option ErrorResponse;
  request : bool;
  axios_message : string
}.

Inductive Settled (A : Type) : Type :=
| Fulfilled (response : A)
| Rejected (error : AxiosError).
Arguments Fulfilled {A} response.
Arguments Rejected {A} error.

(** [timeout] of the axios instance, in milliseconds. *)
Definition timeout : Z := 345000.

(** [error.response.data?.detail || fallback] *)
Definition detail_or (r : ErrorResponse) (fallback : string) : string :=
  match data r with
  | Some d =>
      match ApiError.detail d with
      | Some text => or_else text fallback
      | None => fallback
      end
  | None => fallback
  end.

(** The response interceptor's error handler: the message of the [Error]
    that the rejected promise carries. *)
Definition responseError (error : AxiosError) : Error :=
  let errorMessage :=
    match response error with
    | Some r =>
        if Z.eqb (status r) 503 then
          "The AI service is currently unavailable. Please wait a moment and try again."
        else if Z.eqb (status r) 400 then
          detail_or r "Bad request. Please check your input."
        else
          detail_or r ("Server error: " ++ Number_toString (status r))
    | None =>
        if request error then
          "No response from server. Please check your internet connection or if the API is running."
        else
          "Request setup error: " ++ axios_message error
    end in
  mkError errorMessage.

Section Client.

(** What [response.data] holds.  The type argument of [post<T>] names it
    [QuestionResponse]; nothing in the code tests the data against it, so
    the client is the same for every kind of data. *)
Variable T : Type.

(** The network: what the raw POST of [{ question, max_sources }] to
    [/ask] settles with, before the interceptors run. *)
Variable post : string -> Z -> Settled T.

(** [apiClient.post<QuestionResponse>('/ask', ...)] after the
    interceptors; the success interceptor returns the response as it is.
    The result is [response.data]. *)
Definition apiClient_post (question : string) (max_sources : Z) : Completion T :=
  match post question max_sources with
  | Fulfilled response_data => Normal response_data
  | Rejected e => Throw (responseError e)
  end.

(** [askQuestion(question, maxSources = 5)]: [return response.data]; an
    error is caught and thrown again. *)
Definition askQuestion (question : string) (maxSources : Z) : Completion T :=
  match apiClient_post question maxSources with
  | Normal response_data => Normal response_data
  | Throw error => Throw error
  end.

End Client.

End Api.

(* ================================================================== *)
(** * lib/api.ts, fetch variant: [askQuestionStream] *)
(* ================================================================== *)

Module ApiStream.
Import Js.

Local Open Scope string_scope.

(** [timeout] of this variant's axios instance; [askQuestionStream] does not
    go through it, it calls [fetch]. *)
Definition timeout : Z := 10000.

(** [type StreamResponsePart = StreamMetadata | StreamChunk | StreamEnd] *)
Inductive StreamResponsePart : Type :=
| StreamMetadata (sources : list string)
                 (relevant_chunks_found context_chunks_used : Z)
| StreamChunk (content : string)
| StreamEnd (full_answer timestamp generation_time : string).

(** A value returned by [JSON.parse], seen through what the consumer reads
    of it.  Values are taken at their declared type: a value whose [type]
    member is one of the three tags is a [StreamResponsePart]. *)
Inductive JSValue : Type :=
| JSNull                                (* [null]: reading [.type] throws *)
| JSPart (part : StreamResponsePart)
| JSOther.                              (* [.type] is none of the three tags *)

(** [response.body.getReader()] together with the decoder: the results of
    the successive [reader.read()] calls, each one the text that
    [decoder.decode(value, { stream: true })] gives for the bytes read, or
    the error the read rejects with.  After the last item the reader
    reports [done]. *)
Definition Reader : Type := list (Completion string).

(** The body of an error response, seen through [errorData.error]. *)
Record ErrorData : Type := mkErrorData { error : option string }.

Record Response : Type := mkResponse {
  ok : bool;
  status : Z;
  json : Completion ErrorData;
  body : option Reader
}.

(** How the body of a [for] loop iteration ends: it reaches its end (or
    [continue]), or it executes [return]. *)
Inductive Flow : Type := Next | Return.

Section Consumer.

(** The state that the three callbacks act on. *)
Variable S : Type.

Variable JSON_parse : string -> Completion JSValue.

(** The network: what [fetch] of the POST of [{ question }] to [/ask]
    settles with. *)
Variable fetch : string -> Completion Response.

Variable onStreamUpdate : string -> list string -> S -> S.
Variable onStreamEnd : string -> S -> S.
Variable onError : string -> S -> S.

(** The function's mutable variables and the callbacks' state. *)
Record Frame : Type := mkFrame {
  accumulatedContent : string;
  sources : list string;
  world : S
}.

Definition Eff (A : Type) : Type := Frame -> Completion A * Frame.

Definition ret {A} (a : A) : Eff A := fun f => (Normal a, f).

Definition bind {A B} (m : Eff A) (k : A -> Eff B) : Eff B :=
  fun f =>
    match m f with
    | (Normal a, f') => k a f'
    | (Throw e, f') => (Throw e, f')
    end.

Definition throw {A} (e : Error) : Eff A := fun f => (Throw e, f).

Definition await {A} (p : Completion A) : Eff A := fun f => (p, f).

Definition tryCatch {A} (m : Eff A) (handler : Error -> Eff A) : Eff A :=
  fun f =>
    match m f with
    | (Normal a, f') => (Normal a, f')
    | (Throw e, f') => handler e f'
    end.

Definition read {A} (var : Frame -> A) : Eff A := fun f => (Normal (var f), f).

Definition set_accumulatedContent (v : string) : Eff unit :=
  fun f => (Normal tt, mkFrame v (sources f) (world f)).

Definition set_sources (v : list string) : Eff unit :=
  fun f => (Normal tt, mkFrame (accumulatedContent f) v (world f)).

Definition call (callback : S -> S) : Eff unit :=
  fun f => (Normal tt, mkFrame (accumulatedContent f) (sources f) (callback (world f))).

Notation "x <- m ;; k" := (bind m (fun x => k))
  (at level 61, m at next level, right associativity).
Notation "m ;; k" := (bind m (fun _ => k))
  (at level 61, right associativity).

(** One iteration of [for (const line of lines)]: the [try] block and its
    [catch], which only logs. *)
Definition line_body (line : string) : Eff Flow :=
  tryCatch
    (let jsonLine := if startsWith line "data: " then substring line 6 else line in
     if trim jsonLine =? "" then ret Next
     else
       parsed <- await (JSON_parse jsonLine) ;;
       match parsed with
       | JSNull => throw (mkError "Cannot read properties of null (reading 'type')")
       | JSPart (StreamMetadata parsed_sources _ _) =>
           set_sources parsed_sources ;;
           content <- read accumulatedContent ;;
           srcs <- read sources ;;
           call (onStreamUpdate content srcs) ;;
           ret Next
       | JSPart (StreamChunk parsed_content) =>
           content <- read accumulatedContent ;;
           set_accumulatedContent (content ++ parsed_content) ;;
           content <- read accumulatedContent ;;
           srcs <- read sources ;;
           call (onStreamUpdate content srcs) ;;
           ret Next
       | JSPart (StreamEnd full_answer _ _) =>
           call (onStreamEnd full_answer) ;;
           ret Return
       | JSOther => ret Next
       end)
    (fun _ => ret Next).

(** [for (const line of lines) { ... }] *)
Fixpoint for_lines (lines : list string) : Eff Flow :=
  match lines with
  | [] => ret Next
  | line :: rest =>
      flow <- line_body line ;;
      match flow with
      | Return => ret Return
      | Next => for_lines rest
      end
  end.

(** [chunk.split('\n').filter(line => line.trim() !== '')] *)
Definition lines_of (chunk : string) : list string :=
  filter (fun line => negb (trim line =? "")) (split chunk LF).

(** [while (true) { ... }] over the reads of the body. *)
Fixpoint while_reading (reader : Reader) : Eff unit :=
  match reader with
  | [] => ret tt                                    (* [if (done) break] *)
  | result :: later =>
      chunk <- await result ;;
      flow <- for_lines (lines_of chunk) ;;
      match flow with
      | Return => ret tt
      | Next => while_reading later
      end
  end.

(** The [try] block of [askQuestionStream]. *)
Definition try_block (question : string) : Eff unit :=
  response <- await (fetch question) ;;
  (if negb (ok response) then
     errorData <- await (json response) ;;
     let fallback := "HTTP error! status: " ++ Number_toString (status response) in
     throw (mkError match error errorData with
                    | Some text => or_else text fallback
                    | None => fallback
                    end)
   else ret tt) ;;
  match body response with
  | None => throw (mkError "Failed to get readable stream from response.")
  | Some reader =>
      set_accumulatedContent "" ;;
      set_sources [] ;;
      while_reading reader
  end.

(** [askQuestionStream(question, onStreamUpdate, onStreamEnd, onError)]:
    from the callbacks' state at the call to their state when the returned
    promise settles.  The promise never rejects: the callbacks are total. *)
Definition askQuestionStream (question : string) (w : S) : S :=
  let run :=
    tryCatch (try_block question)
      (fun error =>
         call (onError (or_else (message error) "Network error during streaming."))) in
  world (snd (run (mkFrame "" [] w))).

End Consumer.

End ApiStream.

(* ================================================================== *)
(** * hooks/useChat.ts: the state both variants of the hook keep *)
(* ================================================================== *)

Module Hook.
Import Js.

(** The four [useState] cells. *)
Record State : Type := mkState {
  messages : list Message.t;
  isLoading : bool;
  apiError : option string;
  isInitialized : bool
}.

Definition setMessages (update : list Message.t -> list Message.t) (st : State) : State :=
  mkState (update (messages st)) (isLoading st) (apiError st) (isInitialized st).

Definition setIsLoading (value : bool) (st : State) : State :=
  mkState (messages st) value (apiError st) (isInitialized st).

Definition setApiError (value : option string) (st : State) : State :=
  mkState (messages st) (isLoading st) value (isInitialized st).

(** The clock readings of one [sendMessage] call, in program order: the two
    [Date.now()] of the ids, the [new Date()] of the user message and of the
    loading message, and the [new Date()] taken when the answer or the error
    arrives. *)
Record Clock : Type := mkClock {
  now_user : Z;
  now_assistant : Z;
  date_user : Date;
  date_loading : Date;
  date_settled : Date
}.

(** Where [sendMessage] puts the assistant's message: after the messages
    there were and the user's message. *)
Definition answer_index (st : State) : nat := S (length (messages st)).

(** [`assistant-${Date.now()}`] *)
Definition assistant_id (clock : Clock) : string :=
  ("assistant-" ++ Number_toString (now_assistant clock))%string.

(** A message and the hook's state as the [Message] interface declares
    them, that is without the [source] property. *)
Definition without_source (m : Message.t) : Message.t :=
  Message.make (Message.id m) (Message.type m) (Message.content m) (Message.timestamp m)
    (Message.sources m) (Message.isLoading m) (Message.error m) None.

Definition declared (st : State) : State :=
  mkState (map without_source (messages st)) (isLoading st) (apiError st)
          (isInitialized st).

(** [prevMessages.map(msg => msg.id === assistantMessageId ? patch(msg) : msg)] *)
Definition patch_message (assistantMessageId : string)
           (patch : Message.t -> Message.t) (prev : list Message.t) : list Message.t :=
  map (fun msg => if String.eqb (Message.id msg) assistantMessageId then patch msg else msg)
      prev.

End Hook.

(* ================================================================== *)
(** * hooks/useChat.ts, streaming variant *)
(* ================================================================== *)

Module UseChatStream.
Import Js Hook.

Local Open Scope string_scope.

Section UseChat.

Variable JSON_parse : string -> Completion ApiStream.JSValue.
Variable fetch : string -> Completion ApiStream.Response.
Variable clock : Clock.

(** What the three callbacks share: the hook's state and the variable
    [receivedSources] they close over. *)
Record Closure : Type := mkClosure {
  hook : State;
  receivedSources : list string
}.

Definition onStreamUpdate (assistantMessageId : string)
           (newContent : string) (newSources : list string) (c : Closure) : Closure :=
  mkClosure
    (setMessages
       (patch_message assistantMessageId
          (fun msg =>
             Message.make (Message.id msg) (Message.type msg) newContent
               (Message.timestamp msg) (Message.sources msg) (Some true)
               (Message.error msg) (Some newSources)))
       (hook c))
    newSources.

Definition onStreamEnd (assistantMessageId : string)
           (fullAnswer : string) (c : Closure) : Closure :=
  mkClosure
    (setIsLoading false
       (setMessages
          (patch_message assistantMessageId
             (fun msg =>
                Message.make (Message.id msg) (Message.type msg) fullAnswer
                  (date_settled clock) (Some (receivedSources c)) (Some false)
                  (Message.error msg) (Message.source msg)))
          (hook c)))
    (receivedSources c).

Definition onError (assistantMessageId : string)
           (errorMsg : string) (c : Closure) : Closure :=
  mkClosure
    (setIsLoading false
       (setApiError (Some errorMsg)
          (setMessages
             (patch_message assistantMessageId
                (fun msg =>
                   Message.make (Message.id msg) (Message.type msg)
                     "Sorry, I encountered an error during streaming. Please try again."
                     (date_settled clock) (Message.sources msg) (Some false)
                     (Some errorMsg) (Message.source msg)))
             (hook c))))
    (receivedSources c).

(** [sendMessage(question)], from the hook's state at the call to its
    state when the returned promise settles.  [isLoading] is the value that
    the callback closes over: the call is taken to be made from the render of
    the state it starts in, and no other update of the hook comes in between.
    The [catch] around [askQuestionStream] is never entered, as that promise
    never rejects. *)
Definition sendMessage (question : string) (st : State) : State :=
  if isLoading st then st
  else
    let userMessageId := "user-" ++ Number_toString (now_user clock) in
    let assistantMessageId := "assistant-" ++ Number_toString (now_assistant clock) in
    let userMessage :=
      Message.make userMessageId Message.user question (date_user clock)
        None None None None in
    let loadingMessage :=
      Message.make assistantMessageId Message.assistant " Let me think about that..."
        (date_loading clock) (Some []) (Some true) None None in
    let st :=
      setApiError None
        (setIsLoading true
           (setMessages (fun prev => (prev ++ [userMessage; loadingMessage])%list) st)) in
    hook
      (ApiStream.askQuestionStream JSON_parse fetch
         (onStreamUpdate assistantMessageId)
         (onStreamEnd assistantMessageId)
         (onError assistantMessageId)
         question
         (mkClosure st [])).

(** The state in which [sendMessage] calls [askQuestionStream]: the hook's
    state after the three setters, and [receivedSources] empty. *)
Definition asking (question : string) (st : State) : Closure :=
  mkClosure
    (setApiError None
       (setIsLoading true
          (setMessages
             (fun prev =>
                (prev ++ [Message.make ("user-" ++ Number_toString (now_user clock))
                            Message.user question (date_user clock) None None None None;
                          Message.make (assistant_id clock) Message.assistant
                            " Let me think about that..." (date_loading clock)
                            (Some []) (Some true) None None])%list)
             st)))
    [].

End UseChat.

End UseChatStream.

(* ================================================================== *)
(** * hooks/useChat.ts, request/response variant *)
(* ================================================================== *)

Module UseChat.
Import Js Hook.

Local Open Scope string_scope.

Section UseChat.

Variable post : string -> Z -> Api.Settled QuestionResponse.t.
Variable clock : Clock.

(** [sendMessage(question)], from the hook's state at the call to its
    state when the returned promise settles, under the same reading of
    [isLoading] as in the streaming variant. *)
Definition sendMessage (question : string) (st : State) : State :=
  if isLoading st then st
  else
    let userMessageId := "user-" ++ Number_toString (now_user clock) in
    let assistantMessageId := "assistant-" ++ Number_toString (now_assistant clock) in
    let userMessage :=
      Message.make userMessageId Message.user question (date_user clock)
        None None None None in
    let st :=
      setApiError None
        (setIsLoading true
           (setMessages (fun prev => (prev ++ [userMessage])%list) st)) in
    let loadingMessage :=
      Message.make assistantMessageId Message.assistant "Let me think about that..."
        (date_loading clock) None (Some true) None None in
    let st := setMessages (fun prev => (prev ++ [loadingMessage])%list) st in
    let st :=
      match Api.askQuestion post question 5 with
      | Normal response =>
          setMessages
            (patch_message assistantMessageId
               (fun msg =>
                  Message.make (Message.id msg) (Message.type msg)
                    (QuestionResponse.answer response)
                    (date_settled clock)
                    (Some (QuestionResponse.sources response)) (Some false)
                    (Message.error msg) (Message.source msg)))
            st
      | Throw error =>
          setApiError (Some (message error))
            (setMessages
               (patch_message assistantMessageId
                  (fun msg =>
                     Message.make (Message.id msg) (Message.type msg)
                       "Sorry, I encountered an error while processing your question. Please try again."
                       (date_settled clock) (Message.sources msg) (Some false)
                       (Some (message error)) (Message.source msg)))
               st)
      end in
    setIsLoading false st.                                  (* [finally] *)

End UseChat.

End UseChat.

(* ================================================================== *)
(** * The protocol as the consumer sees it *)
(* ================================================================== *)

(** Vocabulary for the statements below: the events that the consumer obtains
    from a response body, and the callbacks it makes.  The events are read off
    the body with the consumer's own line handling ([lines_of], the [data: ]
    prefix, [JSON_parse]). *)

Module Session.
Import Js ApiStream.

Local Open Scope string_scope.

Section Events.

Variable JSON_parse : string -> Completion JSValue.

(** The event that one line of a read yields, if any. *)
Definition event_of_line (line : string) : option StreamResponsePart :=
  let jsonLine := if startsWith line "data: " then substring line 6 else line in
  if trim jsonLine =? "" then None
  else
    match JSON_parse jsonLine with
    | Normal (JSPart part) => Some part
    | _ => None
    end.

Fixpoint events_of_lines (lines : list string) : list StreamResponsePart :=
  match lines with
  | [] => []
  | line :: rest =>
      match event_of_line line with
      | Some part => part :: events_of_lines rest
      | None => events_of_lines rest
      end
  end.

(** The events of the reads that precede the first failing read. *)
Fixpoint received (reader : Reader) : list StreamResponsePart :=
  match reader with
  | [] => []
  | Throw _ :: _ => []
  | Normal chunk :: later => (events_of_lines (lines_of chunk) ++ received later)%list
  end.

(** The error of the first failing read. *)
Fixpoint read_failure (reader : Reader) : option Error :=
  match reader with
  | [] => None
  | Throw e :: _ => Some e
  | Normal _ :: later => read_failure later
  end.

End Events.

(** The events up to the first end event, and that end event's answer. *)
Fixpoint before_end (events : list StreamResponsePart) : list StreamResponsePart :=
  match events with
  | [] => []
  | StreamEnd _ _ _ :: _ => []
  | event :: later => event :: before_end later
  end.

Fixpoint first_end (events : list StreamResponsePart) : option string :=
  match events with
  | [] => None
  | StreamEnd full_answer _ _ :: _ => Some full_answer
  | _ :: later => first_end later
  end.

(** The concatenation, in order, of the [content] of the chunk events. *)
Fixpoint chunk_text (events : list StreamResponsePart) : string :=
  match events with
  | [] => ""
  | StreamChunk content :: later => content ++ chunk_text later
  | _ :: later => chunk_text later
  end.

(** The [sources] of the last metadata event, [initial] if there is none. *)
Fixpoint latest_sources (initial : list string) (events : list StreamResponsePart)
  : list string :=
  match events with
  | [] => initial
  | StreamMetadata sources _ _ :: later => latest_sources sources later
  | _ :: later => latest_sources initial later
  end.

Section Effects.

Variable S : Type.
Variable onStreamUpdate : string -> list string -> S -> S.
Variable onStreamEnd : string -> S -> S.
Variable onError : string -> S -> S.

(** What a metadata or chunk event does to the consumer's frame: the
    assignment and the [onStreamUpdate] call of its branch.  An end event has
    no part in it. *)
Definition apply_update (event : StreamResponsePart) (f : Frame S) : Frame S :=
  match event with
  | StreamMetadata parsed_sources _ _ =>
      mkFrame (accumulatedContent f) parsed_sources
              (onStreamUpdate (accumulatedContent f) parsed_sources (world f))
  | StreamChunk parsed_content =>
      mkFrame (accumulatedContent f ++ parsed_content) (sources f)
              (onStreamUpdate (accumulatedContent f ++ parsed_content) (sources f) (world f))
  | StreamEnd _ _ _ => f
  end.

Definition apply_updates (events : list StreamResponsePart) (f : Frame S) : Frame S :=
  fold_left (fun f event => apply_update event f) events f.

(** The frame after [onStreamEnd(full_answer)]. *)
Definition ended (full_answer : string) (f : Frame S) : Frame S :=
  mkFrame (accumulatedContent f) (sources f) (onStreamEnd full_answer (world f)).

(** How a read of the whole body ends: with an end event, with a failing read,
    or with the reader reporting [done]. *)
Inductive Ending : Type :=
| Ended (full_answer : string)
| Failed (error : Error)
| Exhausted.

Definition ending (events : list StreamResponsePart) (failure : option Error) : Ending :=
  match first_end events, failure with
  | Some full_answer, _ => Ended full_answer
  | None, Some e => Failed e
  | None, None => Exhausted
  end.

(** The terminal callback that an ending is answered with. *)
Definition settle (e : Ending) (w : S) : S :=
  match e with
  | Ended full_answer => onStreamEnd full_answer w
  | Failed error => onError (or_else (message error) "Network error during streaming.") w
  | Exhausted => w
  end.

End Effects.

(** A callback invocation, with its arguments. *)
Inductive Callback : Type :=
| OnStreamUpdate (content : string) (sources : list string)
| OnStreamEnd (fullAnswer : string)
| OnError (errorMsg : string).

Definition log_update (content : string) (sources : list string) (log : list Callback) :=
  (log ++ [OnStreamUpdate content sources])%list.
Definition log_end (fullAnswer : string) (log : list Callback) :=
  (log ++ [OnStreamEnd fullAnswer])%list.
Definition log_error (errorMsg : string) (log : list Callback) :=
  (log ++ [OnError errorMsg])%list.

(** The callbacks that one call of [askQuestionStream] makes, in order. *)
Definition callbacks (JSON_parse : string -> Completion JSValue)
           (fetch : string -> Completion Response) (question : string) : list Callback :=
  askQuestionStream JSON_parse fetch log_update log_end log_error question [].

(** The message that [onError] gets for a response that is not ok. *)
Definition not_ok_message (response : Response) : string :=
  match json response with
  | Normal errorData =>
      let fallback := "HTTP error! status: " ++ Number_toString (status response) in
      or_else match error errorData with
              | Some text => or_else text fallback
              | None => fallback
              end
              "Network error during streaming."
  | Throw e => or_else (message e) "Network error during streaming."
  end.

(** The terminal callback of an ending, if it has one. *)
Definition terminal (e : Ending) : list Callback :=
  match e with
  | Ended full_answer => [OnStreamEnd full_answer]
  | Failed error => [OnError (or_else (message error) "Network error during streaming.")]
  | Exhausted => []
  end.

(** The ways a query fails, each with the events that the consumer has
    processed by then: [fetch] rejects, the response is not ok, the response
    has no body, or a read of the body rejects before any end event. *)
Inductive fails_after (JSON_parse : string -> Completion JSValue)
  : Completion Response -> list StreamResponsePart -> Prop :=
| fetch_rejects (e : Js.Error) :
    fails_after JSON_parse (Throw e) []
| response_not_ok (response : Response) :
    ok response = false ->
    fails_after JSON_parse (Normal response) []
| body_missing (response : Response) :
    ok response = true ->
    body response = None ->
    fails_after JSON_parse (Normal response) []
| read_rejects (response : Response) (reader : Reader) (e : Js.Error) :
    ok response = true ->
    body response = Some reader ->
    read_failure reader = Some e ->
    first_end (received JSON_parse reader) = None ->
    fails_after JSON_parse (Normal response) (received JSON_parse reader).

(** The updates that a run of events without end event calls for: one per
    event, the [n]-th with the text of the chunks among the first [n] events
    and the sources of the last metadata event among them. *)
Definition updates (events : list StreamResponsePart) : list Callback :=
  map (fun n => OnStreamUpdate (chunk_text (firstn n events)) (latest_sources [] (firstn n events)))
      (seq 1 (length events)).

Definition is_terminal (c : Callback) : bool :=
  match c with
  | OnStreamUpdate _ _ => false
  | OnStreamEnd _ | OnError _ => true
  end.

(** A response with status 200 whose body is [reader]. *)
Definition streaming (reader : Reader) : Response :=
  mkResponse true 200 (Normal (mkErrorData None)) (Some reader).

(** The text of one read that carries the given lines, each followed by a
    line feed. *)
Fixpoint join_lines (lines : list string) : string :=
  match lines with
  | [] => ""
  | line :: rest => line ++ String LF (join_lines rest)
  end.

(** A line that [lines_of] returns as it is: no line feed in it, and not
    blank. *)
Fixpoint no_line_feed (s : string) : bool :=
  match s with
  | EmptyString => true
  | String c rest => negb (Ascii.eqb c LF) && no_line_feed rest
  end.

Definition whole_line (line : string) : bool :=
  no_line_feed line && negb (trim line =? "").

End Session.

(* ================================================================== *)
(** * The assistant's message during a stream *)
(* ================================================================== *)

Module Answer.

(** The message that a run of updates makes of a message with the
    assistant's id: the last update decides its content and its [source]
    property. *)
Definition updated (events : list ApiStream.StreamResponsePart)
           (f : ApiStream.Frame UseChatStream.Closure) (m : Message.t) : Message.t :=
  match events with
  | [] => m
  | _ :: _ =>
      Message.make (Message.id m) (Message.type m)
        (ApiStream.accumulatedContent f ++ Session.chunk_text events)
        (Message.timestamp m) (Message.sources m) (Some true) (Message.error m)
        (Some (Session.latest_sources (ApiStream.sources f) events))
  end.

End Answer.

(* ================================================================== *)
(** * A reference [JSON.parse] for the protocol's lines *)
(* ================================================================== *)

(** The consumer is parameterised by [JSON.parse].  To run it on concrete
    bodies, this module gives a parser for the JSON texts that the protocol
    is written in: [null], [true], [false], integers, strings with the
    escapes of the JSON grammar, arrays and objects.  A number with a
    fraction or an exponent, and an escape for a code unit above 255, lie
    outside the embedding's numbers and strings and are not read. *)

Module Json.
Import Js ApiStream.

Local Open Scope string_scope.
Local Open Scope char_scope.

#[warnings="-register-all"]
Inductive value : Type :=
| Null
| Bool (b : bool)
| Number (n : Z)
| Str (s : string)
| Array (items : list value)
| Object (members : list (string * value)).

Definition quote : ascii := "034".
Definition backslash : ascii := "092".

(** JSON whitespace: space, TAB, LF, CR. *)
Definition is_space (c : ascii) : bool :=
  match nat_of_ascii c with
  | 9 | 10 | 13 | 32 => true
  | _ => false
  end.

Fixpoint skip_space (s : string) : string :=
  match s with
  | String c rest => if is_space c then skip_space rest else s
  | EmptyString => s
  end.

Definition digit (c : ascii) : option Z :=
  let n := Z.of_nat (nat_of_ascii c) in
  if (48 <=? n)%Z && (n <=? 57)%Z then Some (n - 48)%Z else None.

Definition hex_digit (c : ascii) : option nat :=
  let n := nat_of_ascii c in
  if (48 <=? n)%nat && (n <=? 57)%nat then Some (n - 48)%nat
  else if (97 <=? n)%nat && (n <=? 102)%nat then Some (n - 87)%nat
  else if (65 <=? n)%nat && (n <=? 70)%nat then Some (n - 55)%nat
  else None.

(** The digits at the head of [s], read onto [acc]. *)
Fixpoint digits (s : string) (acc : Z) : Z * string :=
  match s with
  | String c rest =>
      match digit c with
      | Some d => digits rest (10 * acc + d)%Z
      | None => (acc, s)
      end
  | EmptyString => (acc, s)
  end.

(** An integer: [0] or a non-zero digit followed by digits; what follows must
    not continue the number. *)
Definition natural (s : string) : option (Z * string) :=
  match s with
  | String c rest =>
      match digit c with
      | Some d =>
          let (n, rest') := if (d =? 0)%Z then (0%Z, rest) else digits rest d in
          match rest' with
          | String "." _ | String "e" _ | String "E" _ => None
          | String c' _ => match digit c' with Some _ => None | None => Some (n, rest') end
          | EmptyString => Some (n, rest')
          end
      | None => None
      end
  | EmptyString => None
  end.

(** The characters of a string literal after its opening quote, up to and
    without the closing quote. *)
Fixpoint string_body (s : string) : option (string * string) :=
  let keep c rest :=
    match string_body rest with
    | Some (text, rest') => Some (String c text, rest')
    | None => None
    end in
  match s with
  | EmptyString => None
  | String c rest =>
      if Ascii.eqb c quote then Some (EmptyString, rest)
      else if Ascii.eqb c backslash then
        match rest with
        | String "u" (String h1 (String h2 (String h3 (String h4 rest')))) =>
            match hex_digit h1, hex_digit h2, hex_digit h3, hex_digit h4 with
            | Some 0%nat, Some 0%nat, Some a, Some b => keep (ascii_of_nat (16 * a + b)) rest'
            | _, _, _, _ => None
            end
        | String e rest' =>
            if Ascii.eqb e quote then keep quote rest'
            else if Ascii.eqb e backslash then keep backslash rest'
            else match e with
                 | "/" => keep "/" rest'
                 | "b" => keep "008" rest'
                 | "f" => keep "012" rest'
                 | "n" => keep "010" rest'
                 | "r" => keep "013" rest'
                 | "t" => keep "009" rest'
                 | _ => None
                 end
        | EmptyString => None
        end
      else if (nat_of_ascii c <? 32)%nat then None
      else keep c rest
  end.

Fixpoint parse_value (fuel : nat) (s : string) : option (value * string) :=
  match fuel with
  | O => None
  | S fuel =>
      match skip_space s with
      | EmptyString => None
      | String c rest =>
          if Ascii.eqb c quote then
            match string_body rest with
            | Some (text, rest') => Some (Str text, rest')
            | None => None
            end
          else match c with
          | "[" =>
              match skip_space rest with
              | String "]" rest' => Some (Array [], rest')
              | _ =>
                  match parse_items fuel rest with
                  | Some (items, rest') => Some (Array items, rest')
                  | None => None
                  end
              end
          | "{" =>
              match skip_space rest with
              | String "}" rest' => Some (Object [], rest')
              | _ =>
                  match parse_members fuel rest with
                  | Some (members, rest') => Some (Object members, rest')
                  | None => None
                  end
              end
          | "-" =>
              match natural rest with
              | Some (n, rest') => Some (Number (- n), rest')
              | None => None
              end
          | _ =>
              if startsWith (String c rest) "null" then Some (Null, substring rest 3)
              else if startsWith (String c rest) "true" then Some (Bool true, substring rest 3)
              else if startsWith (String c rest) "false" then Some (Bool false, substring rest 4)
              else
                match natural (String c rest) with
                | Some (n, rest') => Some (Number n, rest')
                | None => None
                end
          end
      end
  end

with parse_items (fuel : nat) (s : string) : option (list value * string) :=
  match fuel with
  | O => None
  | S fuel =>
      match parse_value fuel s with
      | Some (item, rest) =>
          match skip_space rest with
          | String "," rest' =>
              match parse_items fuel rest' with
              | Some (items, rest'') => Some (item :: items, rest'')
              | None => None
              end
          | String "]" rest' => Some ([item], rest')
          | _ => None
          end
      | None => None
      end
  end

with parse_members (fuel : nat) (s : string) : option (list (string * value) * string) :=
  match fuel with
  | O => None
  | S fuel =>
      match skip_space s with
      | String c rest =>
          if Ascii.eqb c quote then
            match string_body rest with
            | Some (key, rest') =>
                match skip_space rest' with
                | String ":" rest'' =>
                    match parse_value fuel rest'' with
                    | Some (v, rest3) =>
                        match skip_space rest3 with
                        | String "," rest4 =>
                            match parse_members fuel rest4 with
                            | Some (members, rest5) => Some ((key, v) :: members, rest5)
                            | None => None
                            end
                        | String "}" rest4 => Some ([(key, v)], rest4)
                        | _ => None
                        end
                    | None => None
                    end
                | _ => None
                end
            | None => None
            end
          else None
      | EmptyString => None
      end
  end.

(** The whole text as one JSON value. *)
Definition parse (text : string) : option value :=
  match parse_value (2 * String.length text + 2) text with
  | Some (v, rest) =>
      match skip_space rest with
      | EmptyString => Some v
      | String _ _ => None
      end
  | None => None
  end.

(** [object.key]: the last member with that key. *)
Fixpoint member (key : string) (members : list (string * value)) : option value :=
  match members with
  | [] => None
  | (k, v) :: rest =>
      match member key rest with
      | Some later => Some later
      | None => if String.eqb k key then Some v else None
      end
  end.

Fixpoint strings (items : list value) : option (list string) :=
  match items with
  | [] => Some []
  | Str s :: rest =>
      match strings rest with
      | Some ss => Some (s :: ss)
      | None => None
      end
  | _ :: _ => None
  end.

(** A parsed value as the consumer reads it.  An object that carries one of
    the three tags is read at the tag's interface; without the members that
    the interface declares it is outside the typed embedding and read as
    [JSOther]. *)
Definition view (v : value) : JSValue :=
  match v with
  | Null => JSNull
  | Object members =>
      match member "type" members with
      | Some (Str "metadata") =>
          match member "sources" members, member "relevant_chunks_found" members,
                member "context_chunks_used" members with
          | Some (Array items), Some (Number found), Some (Number used) =>
              match strings items with
              | Some sources => JSPart (StreamMetadata sources found used)
              | None => JSOther
              end
          | _, _, _ => JSOther
          end
      | Some (Str "chunk") =>
          match member "content" members with
          | Some (Str content) => JSPart (StreamChunk content)
          | _ => JSOther
          end
      | Some (Str "end") =>
          match member "full_answer" members, member "timestamp" members,
                member "generation_time" members with
          | Some (Str full_answer), Some (Str timestamp), Some (Str generation_time) =>
              JSPart (StreamEnd full_answer timestamp generation_time)
          | _, _, _ => JSOther
          end
      | _ => JSOther
      end
  | _ => JSOther
  end.

(** [JSON.parse(text)] *)
Definition JSON_parse (text : string) : Completion JSValue :=
  match parse text with
  | Some v => Normal (view v)
  | None => Throw (mkError "Unexpected token in JSON")
  end.


(** ** Writing lines *)

Definition hex (n : nat) : ascii :=
  match n with
  | 0 => "0" | 1 => "1" | 2 => "2" | 3 => "3" | 4 => "4" | 5 => "5" | 6 => "6" | 7 => "7"
  | 8 => "8" | 9 => "9" | 10 => "a" | 11 => "b" | 12 => "c" | 13 => "d" | 14 => "e"
  | _ => "f"
  end%nat.

Definition escape_char (c : ascii) : string :=
  let n := nat_of_ascii c in
  if Ascii.eqb c quote then String backslash (String quote EmptyString)
  else if Ascii.eqb c backslash then String backslash (String backslash EmptyString)
  else if (n =? 10)%nat then String backslash "n"
  else if (n =? 13)%nat then String backslash "r"
  else if (n =? 9)%nat then String backslash "t"
  else if ((n <? 32) || (126 <? n))%nat then
    String backslash (String "u" (String "0" (String "0"
      (String (hex (n / 16)) (String (hex (n mod 16)) EmptyString)))))
  else String c EmptyString.

Fixpoint escape (s : string) : string :=
  match s with
  | EmptyString => EmptyString
  | String c rest => (escape_char c ++ escape rest)%string
  end.

(** A string literal. *)
Definition literal (s : string) : string :=
  String quote (escape s ++ String quote EmptyString).

Fixpoint literals (items : list string) : string :=
  match items with
  | [] => EmptyString
  | [s] => literal s
  | s :: rest => (literal s ++ ", " ++ literals rest)%string
  end.

(** An object member [key: text]. *)
Definition field (key text : string) : string :=
  (literal key ++ ": " ++ text)%string.

End Json.

(* ================================================================== *)
(** * The producer of the stream *)
(* ================================================================== *)

Module Backend.
Import Js ApiStream.

Local Open Scope string_scope.

(** Modelled from the spec: the Generation Orchestrator of the backend, which
    is not among the sources.  On a successful query it emits one metadata
    event with the source list and the counts, forwards each increment of
    generated text as one chunk event in generation order, and emits one end
    event with the full concatenated answer text, a completion timestamp and
    the elapsed generation time. *)
Definition generation_events (sources : list string)
           (relevant_chunks_found context_chunks_used : Z)
           (increments : list string) (timestamp generation_time : string)
  : list StreamResponsePart :=
  (StreamMetadata sources relevant_chunks_found context_chunks_used
     :: map StreamChunk increments
     ++ [StreamEnd (String.concat "" increments) timestamp generation_time])%list.

(** Modelled from the spec: the line format of the streaming protocol, one
    JSON object per event, written by the backend. *)
Definition line_of_event (event : StreamResponsePart) : string :=
  match event with
  | StreamMetadata sources found used =>
      "{" ++ Json.field "type" (Json.literal "metadata") ++ ", "
          ++ Json.field "sources" ("[" ++ Json.literals sources ++ "]") ++ ", "
          ++ Json.field "relevant_chunks_found" (Number_toString found) ++ ", "
          ++ Json.field "context_chunks_used" (Number_toString used) ++ "}"
  | StreamChunk content =>
      "{" ++ Json.field "type" (Json.literal "chunk") ++ ", "
          ++ Json.field "content" (Json.literal content) ++ "}"
  | StreamEnd full_answer timestamp generation_time =>
      "{" ++ Json.field "type" (Json.literal "end") ++ ", "
          ++ Json.field "full_answer" (Json.literal full_answer) ++ ", "
          ++ Json.field "timestamp" (Json.literal timestamp) ++ ", "
          ++ Json.field "generation_time" (Json.literal generation_time) ++ "}"
  end.

(** A body that delivers the events one line each, all lines of an inner list
    in one read. *)
Definition body_of (reads : list (list StreamResponsePart)) : Reader :=
  map (fun events => Normal (Session.join_lines (map line_of_event events))) reads.

End Backend.

(* ================================================================== *)
(** * A session to run the client on *)
(* ================================================================== *)

Module Demo.
Import Js ApiStream Session Backend.

Local Open Scope string_scope.
Local Open Scope Z_scope.

Definition question : string := "When did Nigeria gain independence?".

Definition metadata : StreamResponsePart :=
  StreamMetadata ["history.pdf"; "https://en.wikipedia.org/wiki/Nigeria"] 2 2.

Definition increments : list string :=
  ["Nigeria "; "gained "; "independence in 1960."].

(** The events of a successful query. *)
Definition events : list StreamResponsePart :=
  generation_events ["history.pdf"; "https://en.wikipedia.org/wiki/Nigeria"] 2 2
    increments "2025-01-01T12:00:00" "1.2s".

Definition end_event : StreamResponsePart :=
  StreamEnd "Nigeria gained independence in 1960." "2025-01-01T12:00:00" "1.2s".

(** The body of a successful query, in three reads. *)
Definition reader : Reader :=
  body_of [[metadata];
           [StreamChunk "Nigeria "; StreamChunk "gained "];
           [StreamChunk "independence in 1960."; end_event]].

(** The same session with a chunk event after its end event. *)
Definition reader_with_late_chunk : Reader :=
  (reader ++ body_of [[StreamChunk "More."]])%list.

(** A body whose third read rejects, after two chunk events. *)
Definition failing_reader : Reader :=
  (body_of [[metadata]; [StreamChunk "Nigeria "; StreamChunk "gained "]]
     ++ [Throw (mkError "network error")])%list.

(** A body that ends after two chunk events, without an end event. *)
Definition exhausted_reader : Reader :=
  body_of [[metadata]; [StreamChunk "Nigeria "; StreamChunk "gained "]].

(** The line of a chunk event, cut off after 25 characters. *)
Definition broken_line : string :=
  String.substring 0 25 (line_of_event (StreamChunk "gained ")).

Definition fetch_of (r : Reader) (_ : string) : Completion Response :=
  Normal (streaming r).

(** The request/response variant's answer to the same question. *)
Definition response : QuestionResponse.t :=
  QuestionResponse.make question "Nigeria gained independence in 1960."
    ["history.pdf"; "https://en.wikipedia.org/wiki/Nigeria"] 2 2
    "2025-01-01T12:00:00" (QArith_base.Qmake 1200 1).

Definition post (_ : string) (_ : Z) : Api.Settled QuestionResponse.t :=
  Api.Fulfilled response.

Definition clock : Hook.Clock :=
  Hook.mkClock 1735732800000 1735732800000 1735732800001 1735732800001 1735732801200.

(** The hook's state after the welcome message, idle. *)
Definition idle : Hook.State :=
  Hook.mkState
    [Message.make "welcome-1" Message.assistant
       "How far! I be your Nigerian History AI assistant. Wetin you wan know today?"
       1704067200000 None (Some false) None None]
    false None true.

(** The same state while a request is in flight. *)
Definition busy : Hook.State :=
  Hook.mkState (Hook.messages idle) true None true.

End Demo.

(* ================================================================== *)
(** * types/index.ts: health and feedback *)
(* ================================================================== *)

Module HealthResponse.

(** [interface HealthResponse] *)
Record t : Type := make {
  status : string;
  message : string;
  timestamp : string
}.

End HealthResponse.

Module FeedbackData.

(** [interface FeedbackData] *)
Record t : Type := make {
  question : string;
  answer : string;
  rating : Z;
  feedback : option string
}.

End FeedbackData.

(* ================================================================== *)
(** * lib/api.ts: [checkHealth] and [submitFeedback] *)
(* ================================================================== *)

(** The axios variant: the requests go through [apiClient] and its
    interceptors. *)
Module ApiEndpoints.
Import Js.

(** [checkHealth()]; [get] is what the raw GET of [/health] settles with. *)
Definition checkHealth (get : Api.Settled HealthResponse.t) : Completion HealthResponse.t :=
  match get with
  | Api.Fulfilled response_data => Normal response_data
  | Api.Rejected e => Throw (Api.responseError e)
  end.

(** [submitFeedback(feedback)]; [post] is what the raw POST of the feedback to
    [/feedback] settles with. *)
Definition submitFeedback (post : FeedbackData.t -> Api.Settled unit)
           (feedback : FeedbackData.t) : Completion unit :=
  match post feedback with
  | Api.Fulfilled _ => Normal tt
  | Api.Rejected e => Throw (Api.responseError e)
  end.

End ApiEndpoints.

(** The fetch variant: [axiosApi] has no interceptors, a rejected request
    throws the axios error as it is. *)
Module ApiStreamEndpoints.
Import Js.

Definition checkHealth (get : Api.Settled HealthResponse.t) : Completion HealthResponse.t :=
  match get with
  | Api.Fulfilled response_data => Normal response_data
  | Api.Rejected e => Throw (mkError (Api.axios_message e))
  end.

Definition submitFeedback (post : FeedbackData.t -> Api.Settled unit)
           (feedback : FeedbackData.t) : Completion unit :=
  match post feedback with
  | Api.Fulfilled _ => Normal tt
  | Api.Rejected e => Throw (mkError (Api.axios_message e))
  end.

End ApiStreamEndpoints.

(* ================================================================== *)
(** * hooks/useChat.ts: the welcome message and [clearMessages] *)
(* ================================================================== *)

Module Lifecycle.
Import Js Hook.

Local Open Scope string_scope.

Definition setIsInitialized (value : bool) (st : State) : State :=
  mkState (messages st) (isLoading st) (apiError st) value.

(** The four [useState] cells at the first render. *)
Definition mounted : State := mkState [] false None false.

(** [new Date('2024-01-01T00:00:00.000Z')] *)
Definition fixedTimestamp : Date := 1704067200000%Z.

(** A double quote, for the texts that hold one. *)
Definition dq : string := String "034" EmptyString.

Section InitializeChat.

(** What [await checkHealth()] completes with. *)
Variable health : Completion HealthResponse.t.

(** The updater that both branches of [initializeChat] hand to
    [setMessages]: the first message is rewritten if it is the welcome
    message, otherwise a message with the id [fallbackId] is pushed. *)
Definition welcome_update (fallbackId content : string) (error : option string)
           (prev : list Message.t) : list Message.t :=
  let pushed :=
    (prev ++ [Message.make fallbackId Message.assistant content fixedTimestamp
                None (Some false) error None])%list in
  match prev with
  | first :: rest =>
      if Message.id first =? "welcome-1" then
        Message.make (Message.id first) (Message.type first) content fixedTimestamp
          (Message.sources first) (Some false) error (Message.source first) :: rest
      else pushed
  | [] => pushed
  end.

(** [initializeChat()], from the hook's state when the effect runs to its
    state when the health check has settled. *)
Definition initializeChat (st : State) : State :=
  let st :=
    setMessages
      (fun _ =>
         [Message.make "welcome-1" Message.assistant
            "How you dey! I be your Nigerian History AI assistant. Abeg give me small time make I ready for you..."
            fixedTimestamp None None None None])
      st in
  let st := setIsInitialized true st in
  let st := setIsLoading true st in
  let st :=
    match health with
    | Normal healthResponse =>
        if HealthResponse.status healthResponse =? "healthy" then
          setMessages
            (welcome_update "welcome-final"
               "I don ready to help you learn about Nigeria's rich history from the olden days of kingdoms to how we dey today. Wetin you wan know?"
               None)
            st
        else
          setMessages
            (welcome_update "welcome-final"
               ("I'm currently experiencing some issues: " ++ dq
                  ++ HealthResponse.message healthResponse ++ dq
                  ++ ". You can still try asking questions, but responses might be delayed or unavailable.")
               (Some (HealthResponse.message healthResponse)))
            st
    | Throw err =>
        setMessages
          (welcome_update "welcome-error-final"
             ("I'm unable to connect to the AI service at the moment. Error: "
                ++ or_else (message err) "Unknown error" ++ ". Please try again later.")
             (Some (message err)))
          (setApiError
             (Some (or_else (message err)
                      "Cannot connect to the AI service. Please ensure the backend API is running."))
             st)
    end in
  setIsLoading false st.                                    (* [finally] *)

(** The effect: [if (!isInitialized) initializeChat()]. *)
Definition effect (st : State) : State :=
  if isInitialized st then st else initializeChat st.

End InitializeChat.

(** The message that [clearMessages] leaves, stamped with [new Date()]. *)
Definition cleared (now : Date) : Message.t :=
  Message.make "welcome-1" Message.assistant
    "How far! I be your Nigerian History AI assistant. Wetin you wan know today?"
    now None None None None.

(** [clearMessages()] of the streaming variant. *)
Definition clearMessages_stream (now : Date) (st : State) : State :=
  setIsInitialized false
    (setIsLoading false
       (setApiError None
          (setMessages (fun _ => [cleared now]) st))).

(** [clearMessages()] of the request/response variant. *)
Definition clearMessages (now : Date) (st : State) : State :=
  setIsLoading false
    (setApiError None
       (setMessages (fun _ => [cleared now]) st)).

End Lifecycle.

(* ================================================================== *)
(** * app/page.tsx: the handlers of [Home] *)
(* ================================================================== *)

Module Page.
Import Js.

Local Open Scope string_scope.

(** [s.replace(pattern, replacement)] for a string pattern and a replacement
    without [$]: the first occurrence is replaced. *)
Fixpoint replace (s pattern replacement : string) : string :=
  if startsWith s pattern then replacement ++ substring s (String.length pattern)
  else
    match s with
    | EmptyString => EmptyString
    | String c rest => String c (replace rest pattern replacement)
    end.

(** [list.pop()] of a fresh array: its last element. *)
Fixpoint pop {A : Type} (l : list A) : option A :=
  match l with
  | [] => None
  | [x] => Some x
  | _ :: rest => pop rest
  end.

(** [m.type === 'assistant' && !m.isLoading && !m.error] *)
Definition rateable (m : Message.t) : bool :=
  match Message.type m with
  | Message.assistant =>
      negb match Message.isLoading m with Some b => b | None => false end
      && negb match Message.error m with Some text => negb (text =? "") | None => false end
  | Message.user => false
  end.

(** What the effect on [messages] stores in [lastAssistantMessage]. *)
Definition latestAssistantMessage (messages : list Message.t) : option Message.t :=
  pop (filter rateable messages).

(** What the handlers do to the world outside the component. *)
Inductive Effect : Type :=
| Alert (text : string)
| SubmitFeedback (feedbackData : FeedbackData.t).

(** The [useState] cells of [Home] that the handlers use, the state of the
    chat hook, and the effects made so far. *)
Record State : Type := mkState {
  currentQuestion : string;
  showFeedbackForm : bool;
  feedbackRating : Z;
  feedbackText : string;
  lastAssistantMessage : option Message.t;
  chat : Hook.State;
  effects : list Effect
}.

Section Handlers.

(** [sendMessage] of the hook in use. *)
Variable sendMessage : string -> Hook.State -> Hook.State.

(** What the POST of a feedback settles with, through [submitFeedback]. *)
Variable submitFeedback : FeedbackData.t -> Completion unit.

(** [handleSubmit(e)] *)
Definition handleSubmit (p : State) : State :=
  if negb (trim (currentQuestion p) =? "") then
    mkState "" false (feedbackRating p) (feedbackText p) (lastAssistantMessage p)
            (sendMessage (currentQuestion p) (chat p)) (effects p)
  else p.

(** [handleSampleQuestion(question)] *)
Definition handleSampleQuestion (question : string) (p : State) : State :=
  mkState question (showFeedbackForm p) (feedbackRating p) (feedbackText p)
          (lastAssistantMessage p) (chat p) (effects p).

(** The [feedbackData] that [handleFeedbackSubmit] builds for the message
    [last]. *)
Definition feedbackData_for (last : Message.t) (p : State) : FeedbackData.t :=
  FeedbackData.make
    (or_else
       match find (fun msg => Message.id msg =? replace (Message.id last) "assistant-" "user-")
                  (Hook.messages (chat p)) with
       | Some msg => Message.content msg
       | None => ""
       end
       "N/A")
    (Message.content last)
    (feedbackRating p)
    (Some (feedbackText p)).

Definition alert (text : string) (p : State) : State :=
  mkState (currentQuestion p) (showFeedbackForm p) (feedbackRating p) (feedbackText p)
          (lastAssistantMessage p) (chat p) (effects p ++ [Alert text]).

(** [handleFeedbackSubmit()] *)
Definition handleFeedbackSubmit (p : State) : State :=
  match lastAssistantMessage p with
  | None => alert "Please provide a rating and ensure there is an AI response to rate." p
  | Some last =>
      if (feedbackRating p =? 0)%Z then
        alert "Please provide a rating and ensure there is an AI response to rate." p
      else
        let feedbackData := feedbackData_for last p in
        let p :=
          mkState (currentQuestion p) (showFeedbackForm p) (feedbackRating p)
                  (feedbackText p) (lastAssistantMessage p) (chat p)
                  (effects p ++ [SubmitFeedback feedbackData]) in
        match submitFeedback feedbackData with
        | Normal _ =>
            let p := alert "Thank you for your feedback!" p in
            mkState (currentQuestion p) false 0 "" (lastAssistantMessage p) (chat p)
                    (effects p)
        | Throw err => alert ("Failed to submit feedback: " ++ message err) p
        end
  end.

End Handlers.

(** The controls of the page that act on the chat. *)
Inductive Control : Type :=
| QuestionInput
| SendButton
| SampleQuestionButton
| ClearChatButton.

(** The [disabled] attribute of each control. *)
Definition disabled (c : Control) (p : State) : bool :=
  match c with
  | QuestionInput => Hook.isLoading (chat p)
  | SendButton => Hook.isLoading (chat p) || (trim (currentQuestion p) =? "")
  | SampleQuestionButton => Hook.isLoading (chat p)
  | ClearChatButton => Hook.isLoading (chat p)
  end.

End Page.

(* ================================================================== *)
(** * Bodies given by their lines *)
(* ================================================================== *)

Module Transport.
Import Js ApiStream.

(** The body whose reads carry the given lines, each inner list in one read
    and each line followed by a line feed. *)
Definition body_of_lines (reads : list (list string)) : Reader :=
  map (fun lines => Normal (Session.join_lines lines)) reads.

(** The same lines as server-sent events: each one after [data: ]. *)
Definition as_data (reads : list (list string)) : list (list string) :=
  map (map (String.append "data: ")) reads.

End Transport.

(* ================================================================== *)
(** * The messages of an exchange *)
(* ================================================================== *)

Module Exchange.
Import Js Hook.

(** [`user-${Date.now()}`] *)
Definition user_id (clock : Clock) : string :=
  ("user-" ++ Number_toString (now_user clock))%string.

(** The [userMessage] of a [sendMessage] call, the same in both variants. *)
Definition userMessage (clock : Clock) (question : string) : Message.t :=
  Message.make (user_id clock) Message.user question (date_user clock)
    None None None None.

End Exchange.

(* ================================================================== *)
(** * More inputs of the demo session *)
(* ================================================================== *)

Module Cases.
Import Js ApiStream.

Local Open Scope string_scope.
Local Open Scope Z_scope.

(** A response with status 500 whose JSON body has an [error] property. *)
Definition not_ok : Response :=
  mkResponse false 500 (Normal (mkErrorData (Some "The vector index is not loaded."))) None.

Definition fetch_not_ok (_ : string) : Completion Response := Normal not_ok.

(** The lines of [Demo.reader], read by read. *)
Definition reads : list (list string) :=
  map (map Backend.line_of_event)
      [[Demo.metadata];
       [StreamChunk "Nigeria "; StreamChunk "gained "];
       [StreamChunk "independence in 1960."; Demo.end_event]].

(** The same lines, cut into reads at other places. *)
Definition regrouped : list (list string) :=
  map (map Backend.line_of_event)
      [[Demo.metadata; StreamChunk "Nigeria "];
       [];
       [StreamChunk "gained "; StreamChunk "independence in 1960."; Demo.end_event]].

Definition fetch_lines (reads : list (list string)) (_ : string) : Completion Response :=
  Normal (Session.streaming (Transport.body_of_lines reads)).

(** The axios error of an answer with status 503. *)
Definition unavailable : Api.AxiosError :=
  Api.mkAxiosError
    (Some (Api.mkErrorResponse 503 (Some (ApiError.make (Some "Model is loading") 503))))
    true "Request failed with status code 503".

Definition rejecting_post (_ : string) (_ : Z) : Api.Settled QuestionResponse.t :=
  Api.Rejected unavailable.

Definition healthy : HealthResponse.t :=
  HealthResponse.make "healthy" "All systems operational" "2025-01-01T12:00:00".

(** A clock that advances between the two [Date.now()] of the ids. *)
Definition ticking_clock : Hook.Clock :=
  Hook.mkClock 1735732800000 1735732800001 1735732800001 1735732800001 1735732801200.

(** The page around a state of the chat hook, nothing typed. *)
Definition page_of (chat : Hook.State) : Page.State :=
  Page.mkState "" false 0 "" None chat [].

End Cases.

(* ================================================================== *)
(** * types/index.ts: [QuestionResponse] on the wire *)
(* ================================================================== *)

Module ResponseBody.
Import Js.

Local Open Scope string_scope.

Definition is_string (v : Json.value) : bool :=
  match v with Json.Str _ => true | _ => false end.

Definition is_number (v : Json.value) : bool :=
  match v with Json.Number _ => true | _ => false end.

Definition is_string_list (v : Json.value) : bool :=
  match v with Json.Array items => forallb is_string items | _ => false end.

(** The members of [interface QuestionResponse] with the tests of their
    declared types; a [Json.value] holds integers for numbers. *)
Definition declared : list (string * (Json.value -> bool)) :=
  [("question", is_string);
   ("answer", is_string);
   ("sources", is_string_list);
   ("relevant_chunks_found", is_number);
   ("context_chunks_used", is_number);
   ("timestamp", is_string);
   ("response_time_ms", is_number)].





End ResponseBody.

(* ================================================================== *)
(** * Bodies cut into reads at any place *)
(* ================================================================== *)

Module Cut.
Import Js ApiStream.

(** The text of a body: the line of each event, each followed by a line
    feed. *)
Definition text (events : list StreamResponsePart) : string :=
  Session.join_lines (map Backend.line_of_event events).

(** The pieces of [s] from the offset [from] on, cut at the given offsets
    (ascending). *)
Fixpoint pieces (from : nat) (offsets : list nat) (s : string) : list string :=
  match offsets with
  | [] => [String.substring from (String.length s - from) s]
  | offset :: rest => String.substring from (offset - from) s :: pieces offset rest s
  end.

(** The body that delivers [s] in reads that end at the given offsets. *)
Definition reader (offsets : list nat) (s : string) : Reader :=
  map (fun piece => Normal piece) (pieces 0 offsets s).

End Cut.

Unset Implicit Arguments.

(* ================================================================== *)
(** * Strings *)
(* ================================================================== *)

Section StringFacts.
Import Js Session.
Local Open Scope string_scope.

Lemma append_assoc (a b c : string) : (a ++ b) ++ c = a ++ (b ++ c).
Proof.
  induction a as [|x a IH]; simpl; [reflexivity | now rewrite IH].
Qed.

Lemma append_empty_r (a : string) : a ++ "" = a.
Proof.
  induction a as [|x a IH]; simpl; [reflexivity | now rewrite IH].
Qed.

Lemma split_fields_no_line_feed (line : string) :
  no_line_feed line = true -> split_fields LF line = (line, []).
Proof.
  induction line as [|c line IH]; simpl; intros H; [reflexivity|].
  apply andb_true_iff in H. destruct H as [Hc Hl].
  rewrite (IH Hl). apply negb_true_iff in Hc. now rewrite Hc.
Qed.

Lemma split_fields_line (line rest : string) :
  no_line_feed line = true ->
  split_fields LF (line ++ String LF rest) = (line, split rest LF).
Proof.
  unfold split.
  induction line as [|c line IH]; simpl; intros H.
  - destruct (split_fields LF rest). reflexivity.
  - apply andb_true_iff in H. destruct H as [Hc Hl].
    rewrite (IH Hl). apply negb_true_iff in Hc. now rewrite Hc.
Qed.

Lemma split_join_lines (lines : list string) :
  forallb no_line_feed lines = true ->
  split (join_lines lines) LF = (lines ++ [""])%list.
Proof.
  induction lines as [|line lines IH]; simpl; intros H; [reflexivity|].
  apply andb_true_iff in H. destruct H as [Hl Hr].
  unfold split at 1. rewrite (@split_fields_line line (join_lines lines) Hl), (IH Hr). reflexivity.
Qed.

(** A read that carries whole lines is taken apart into exactly these lines. *)
Lemma lines_of_join_lines (lines : list string) :
  forallb whole_line lines = true ->
  ApiStream.lines_of (join_lines lines) = lines.
Proof.
  intros H. unfold ApiStream.lines_of.
  rewrite split_join_lines.
  - rewrite filter_app. simpl. rewrite app_nil_r.
    induction lines as [|line lines IH]; simpl in *; [reflexivity|].
    apply andb_true_iff in H. destruct H as [Hl Hr].
    unfold whole_line in Hl. apply andb_true_iff in Hl. destruct Hl as [_ Hb].
    rewrite Hb. now rewrite (IH Hr).
  - induction lines as [|line lines IH]; simpl in *; [reflexivity|].
    apply andb_true_iff in H. destruct H as [Hl Hr].
    unfold whole_line in Hl. apply andb_true_iff in Hl. destruct Hl as [Hn _].
    now rewrite Hn, (IH Hr).
Qed.

End StringFacts.

(* ================================================================== *)
(** * The consumer, event by event *)
(* ================================================================== *)

Section EventFacts.
Import Js ApiStream Session.

Lemma first_end_app (a b : list StreamResponsePart) :
  first_end (a ++ b) =
  match first_end a with
  | Some full_answer => Some full_answer
  | None => first_end b
  end.
Proof.
  induction a as [|[ | | ] a IH]; simpl; auto.
Qed.

Lemma before_end_app (a b : list StreamResponsePart) :
  before_end (a ++ b) =
  match first_end a with
  | Some _ => before_end a
  | None => a ++ before_end b
  end.
Proof.
  induction a as [|[ | | ] a IH]; simpl; auto;
    rewrite IH; destruct (first_end a); reflexivity.
Qed.

Lemma before_end_no_end (events : list StreamResponsePart) :
  first_end events = None -> before_end events = events.
Proof.
  induction events as [|[ | | ] events IH]; simpl; intros H;
    try discriminate; try rewrite (IH H); reflexivity.
Qed.

Lemma first_end_before_end (events : list StreamResponsePart) :
  first_end (before_end events) = None.
Proof.
  induction events as [|[ | | ] events IH]; simpl; auto.
Qed.

Lemma chunk_text_app (a b : list StreamResponsePart) :
  chunk_text (a ++ b) = (chunk_text a ++ chunk_text b)%string.
Proof.
  induction a as [|[ | | ] a IH]; simpl; auto.
  now rewrite IH, append_assoc.
Qed.

Lemma chunk_text_chunks (contents : list string) :
  chunk_text (map StreamChunk contents) = String.concat "" contents.
Proof.
  induction contents as [|c [|c' contents] IH]; simpl in *.
  - reflexivity.
  - apply append_empty_r.
  - now rewrite IH.
Qed.

Lemma latest_sources_app (initial : list string) (a b : list StreamResponsePart) :
  latest_sources initial (a ++ b) = latest_sources (latest_sources initial a) b.
Proof.
  revert initial. induction a as [|[ | | ] a IH]; simpl; auto.
Qed.

Lemma latest_sources_chunks (initial : list string) (contents : list string) :
  latest_sources initial (map StreamChunk contents) = initial.
Proof.
  induction contents as [|c contents IH]; simpl; auto.
Qed.

Lemma first_end_chunks (contents : list string) :
  first_end (map StreamChunk contents) = None.
Proof.
  induction contents as [|c contents IH]; simpl; auto.
Qed.

End EventFacts.

Section ConsumerFacts.
Import Js ApiStream Session.
Local Open Scope string_scope.

Variable S : Type.
Variable JSON_parse : string -> Completion JSValue.
Variable fetch : string -> Completion Response.
Variable onStreamUpdate : string -> list string -> S -> S.
Variable onStreamEnd : string -> S -> S.
Variable onError : string -> S -> S.

(** One iteration of the loop over the lines does what the line's event
    calls for, and nothing when the line yields no event. *)
Lemma line_body_event (line : string) (f : Frame S) :
  line_body JSON_parse onStreamUpdate onStreamEnd line f =
  match event_of_line JSON_parse line with
  | None => (Normal Next, f)
  | Some (StreamEnd full_answer _ _) => (Normal Return, ended onStreamEnd full_answer f)
  | Some event => (Normal Next, apply_update onStreamUpdate event f)
  end.
Proof.
  unfold line_body, event_of_line, tryCatch.
  destruct (trim _ =? ""); [reflexivity|].
  unfold bind, await.
  destruct (JSON_parse _) as [[ |[srcs a b|c|fa ts gt]| ]|e]; destruct f; reflexivity.
Qed.

Lemma apply_updates_app (a b : list StreamResponsePart) (f : Frame S) :
  apply_updates onStreamUpdate (a ++ b) f =
  apply_updates onStreamUpdate b (apply_updates onStreamUpdate a f).
Proof.
  apply fold_left_app.
Qed.

Lemma apply_updates_cons (event : StreamResponsePart) (events : list StreamResponsePart)
      (f : Frame S) :
  apply_updates onStreamUpdate (event :: events) f =
  apply_updates onStreamUpdate events (apply_update onStreamUpdate event f).
Proof.
  reflexivity.
Qed.

Lemma for_lines_events (lines : list string) (f : Frame S) :
  for_lines JSON_parse onStreamUpdate onStreamEnd lines f =
  let events := events_of_lines JSON_parse lines in
  match first_end events with
  | Some full_answer =>
      (Normal Return,
       ended onStreamEnd full_answer (apply_updates onStreamUpdate (before_end events) f))
  | None => (Normal Next, apply_updates onStreamUpdate events f)
  end.
Proof.
  revert f. induction lines as [|line lines IH]; intros f; [reflexivity|].
  cbn [for_lines events_of_lines]. unfold bind.
  rewrite line_body_event.
  destruct (event_of_line JSON_parse line) as [[srcs a b|c|fa ts gt]|].
  - rewrite IH. cbv zeta. cbn [first_end before_end].
    destruct (first_end (events_of_lines JSON_parse lines)); reflexivity.
  - rewrite IH. cbv zeta. cbn [first_end before_end].
    destruct (first_end (events_of_lines JSON_parse lines)); reflexivity.
  - reflexivity.
  - apply IH.
Qed.

Lemma while_reading_events (reader : Reader) (f : Frame S) :
  while_reading JSON_parse onStreamUpdate onStreamEnd reader f =
  let events := received JSON_parse reader in
  let f' := apply_updates onStreamUpdate (before_end events) f in
  match ending events (read_failure reader) with
  | Ended full_answer => (Normal tt, ended onStreamEnd full_answer f')
  | Failed e => (Throw e, f')
  | Exhausted => (Normal tt, f')
  end.
Proof.
  revert f. induction reader as [|[chunk|e] later IH]; intros f; try reflexivity.
  cbn [while_reading received read_failure].
  unfold bind at 1. unfold await. unfold bind.
  rewrite for_lines_events. cbv zeta.
  unfold ending. rewrite first_end_app, before_end_app.
  destruct (first_end (events_of_lines JSON_parse (lines_of chunk))) as [fa|] eqn:E.
  - reflexivity.
  - rewrite IH. cbv zeta. unfold ending.
    rewrite apply_updates_app.
    destruct (first_end (received JSON_parse later)); [reflexivity|].
    destruct (read_failure later); reflexivity.
Qed.

(** The variables [accumulatedContent] and [sources] after a run of updates. *)
Lemma apply_updates_variables (events : list StreamResponsePart) (f : Frame S) :
  first_end events = None ->
  accumulatedContent (apply_updates onStreamUpdate events f) =
    accumulatedContent f ++ chunk_text events /\
  sources (apply_updates onStreamUpdate events f) = latest_sources (sources f) events.
Proof.
  revert f. induction events as [|[srcs a b|c|fa ts gt] events IH]; intros f H;
    cbn [chunk_text latest_sources first_end] in *.
  - cbn. now rewrite append_empty_r.
  - rewrite apply_updates_cons.
    destruct (IH (apply_update onStreamUpdate (StreamMetadata srcs a b) f) H) as [E1 E2].
    rewrite E1, E2. now cbn.
  - rewrite apply_updates_cons.
    destruct (IH (apply_update onStreamUpdate (StreamChunk c) f) H) as [E1 E2].
    rewrite E1, E2. cbn. now rewrite append_assoc.
  - discriminate.
Qed.

(** A call that gets a streaming response: the updates of the events before
    the first end event, then the terminal callback of the ending. *)
Lemma askQuestionStream_streaming (question : string) (response : Response)
      (reader : Reader) (w : S) :
  fetch question = Normal response ->
  ok response = true ->
  body response = Some reader ->
  askQuestionStream JSON_parse fetch onStreamUpdate onStreamEnd onError question w =
  let events := received JSON_parse reader in
  settle onStreamEnd onError (ending events (read_failure reader))
         (world (apply_updates onStreamUpdate (before_end events) (mkFrame "" [] w))).
Proof.
  intros Hfetch Hok Hbody.
  unfold askQuestionStream, try_block, tryCatch, bind, await.
  rewrite Hfetch, Hok. cbn [negb]. rewrite Hbody.
  unfold ret, set_accumulatedContent, set_sources. cbn [accumulatedContent sources world].
  rewrite while_reading_events. cbv zeta.
  destruct (ending _ _); reflexivity.
Qed.

(** A call whose [fetch] rejects makes one call of [onError]. *)
Lemma askQuestionStream_rejected (question : string) (e : Error) (w : S) :
  fetch question = Throw e ->
  askQuestionStream JSON_parse fetch onStreamUpdate onStreamEnd onError question w =
  onError (or_else (message e) "Network error during streaming.") w.
Proof.
  intros Hfetch.
  unfold askQuestionStream, try_block, tryCatch, bind, await.
  now rewrite Hfetch.
Qed.

(** A call that gets a response which is not ok makes one call of
    [onError]. *)
Lemma askQuestionStream_not_ok (question : string) (response : Response) (w : S) :
  fetch question = Normal response ->
  ok response = false ->
  askQuestionStream JSON_parse fetch onStreamUpdate onStreamEnd onError question w =
  onError (not_ok_message response) w.
Proof.
  intros Hfetch Hok.
  unfold askQuestionStream, try_block, tryCatch, bind, await, throw, not_ok_message.
  rewrite Hfetch, Hok. cbn.
  destruct (json response) as [errorData|e]; reflexivity.
Qed.

(** A call that gets a response without a body makes one call of
    [onError]. *)
Lemma askQuestionStream_no_body (question : string) (response : Response) (w : S) :
  fetch question = Normal response ->
  ok response = true ->
  body response = None ->
  askQuestionStream JSON_parse fetch onStreamUpdate onStreamEnd onError question w =
  onError "Failed to get readable stream from response." w.
Proof.
  intros Hfetch Hok Hbody.
  unfold askQuestionStream, try_block, tryCatch, bind, await, throw.
  rewrite Hfetch, Hok. cbn. now rewrite Hbody.
Qed.

End ConsumerFacts.

(* ================================================================== *)
(** * The callbacks of a call *)
(* ================================================================== *)

Section CallbackFacts.
Import Js ApiStream Session.
Local Open Scope string_scope.

Variable JSON_parse : string -> Completion JSValue.
Variable fetch : string -> Completion Response.

Lemma log_apply_updates (events : list StreamResponsePart)
      (content : string) (srcs : list string) (log : list Callback) :
  first_end events = None ->
  world (apply_updates log_update events (mkFrame content srcs log)) =
  (log ++ map (fun n => OnStreamUpdate (content ++ chunk_text (firstn n events))
                                       (latest_sources srcs (firstn n events)))
              (seq 1 (length events)))%list.
Proof.
  unfold apply_updates.
  revert content srcs log.
  induction events as [|[s a b|c|fa ts gt] events IH]; intros content srcs log H;
    cbn [fold_left length seq map first_end] in *.
  - now rewrite app_nil_r.
  - cbn [apply_update accumulatedContent sources world].
    rewrite (IH _ _ _ H). unfold log_update. rewrite <- app_assoc. cbn [app].
    rewrite <- (seq_shift (length events) 1), map_map. cbn [firstn chunk_text latest_sources].
    now rewrite append_empty_r.
  - cbn [apply_update accumulatedContent sources world].
    rewrite (IH _ _ _ H). unfold log_update. rewrite <- app_assoc. cbn [app].
    rewrite <- (seq_shift (length events) 1), map_map. cbn [firstn chunk_text latest_sources].
    rewrite append_empty_r. do 2 f_equal.
    apply map_ext. intros n. now rewrite append_assoc.
  - discriminate.
Qed.

(** The callbacks of a call that gets a streaming response. *)
Lemma callbacks_streaming (question : string) (response : Response) (reader : Reader) :
  fetch question = Normal response ->
  ok response = true ->
  body response = Some reader ->
  callbacks JSON_parse fetch question =
  (updates (before_end (received JSON_parse reader))
     ++ terminal (ending (received JSON_parse reader) (read_failure reader)))%list.
Proof.
  intros Hf Hok Hb. unfold callbacks.
  rewrite (@askQuestionStream_streaming _ JSON_parse fetch log_update log_end log_error
             question response reader [] Hf Hok Hb).
  cbv zeta. rewrite log_apply_updates by apply first_end_before_end.
  cbn [app]. unfold updates.
  destruct (ending _ _); cbn [settle terminal]; unfold log_end, log_error;
    [reflexivity | reflexivity | now rewrite app_nil_r].
Qed.

Lemma updates_not_terminal (events : list StreamResponsePart) :
  existsb is_terminal (updates events) = false.
Proof.
  unfold updates. induction (seq 1 (length events)) as [|n l IH]; simpl; auto.
Qed.

Lemma updates_length (events : list StreamResponsePart) :
  length (updates events) = length events.
Proof.
  unfold updates. now rewrite length_map, length_seq.
Qed.

Lemma updates_nth (events : list StreamResponsePart) (n : nat) :
  n < length events ->
  nth_error (updates events) n =
  Some (OnStreamUpdate (chunk_text (firstn (S n) events))
                       (latest_sources [] (firstn (S n) events))).
Proof.
  intros H. unfold updates.
  rewrite nth_error_map, nth_error_seq.
  destruct (Nat.ltb_spec n (length events)); [reflexivity | lia].
Qed.

(** Every call makes updates and then at most one terminal callback. *)
Lemma callbacks_shape (question : string) :
  exists (us t : list Callback),
    callbacks JSON_parse fetch question = (us ++ t)%list /\
    existsb is_terminal us = false /\
    forallb is_terminal t = true /\
    length t <= 1.
Proof.
  destruct (fetch question) as [response|e] eqn:Hf.
  - destruct (ok response) eqn:Hok.
    + destruct (body response) as [reader|] eqn:Hb.
      * rewrite (@callbacks_streaming question response reader Hf Hok Hb).
        eexists _, _. split; [reflexivity|]. split; [apply updates_not_terminal|].
        destruct (ending _ _); cbn; auto.
      * exists [], [OnError "Failed to get readable stream from response."].
        split; [|cbn; auto].
        exact (@askQuestionStream_no_body _ JSON_parse fetch log_update log_end log_error
                 question response [] Hf Hok Hb).
    + exists [], [OnError (not_ok_message response)]. split; [|cbn; auto].
      exact (@askQuestionStream_not_ok _ JSON_parse fetch log_update log_end log_error
               question response [] Hf Hok).
  - exists [], [OnError (or_else (message e) "Network error during streaming.")].
    split; [|cbn; auto].
    exact (@askQuestionStream_rejected _ JSON_parse fetch log_update log_end log_error
               question e [] Hf).
Qed.

End CallbackFacts.

(* ================================================================== *)
(** * The hook's callbacks *)
(* ================================================================== *)

Section HookFacts.
Import Js ApiStream Session Hook.
Local Open Scope string_scope.

Variable JSON_parse : string -> Completion JSValue.
Variable fetch : string -> Completion Response.
Variable clock : Clock.

Lemma nth_error_patch_message (aid : string) (patch : Message.t -> Message.t)
      (prev : list Message.t) (i : nat) :
  nth_error (patch_message aid patch prev) i =
  option_map (fun msg => if Message.id msg =? aid then patch msg else msg)
             (nth_error prev i).
Proof.
  apply nth_error_map.
Qed.

(** The message that [sendMessage] appends for the assistant is where
    [answer_index] says. *)
Lemma nth_error_answer_index (st : State) (userMessage loadingMessage : Message.t) :
  nth_error (messages st ++ [userMessage; loadingMessage]) (answer_index st) =
  Some loadingMessage.
Proof.
  unfold answer_index. rewrite nth_error_app2 by lia.
  replace (S (length (messages st)) - length (messages st)) with 1 by lia.
  reflexivity.
Qed.

Lemma patch_message_ext (aid : string) (p q : Message.t -> Message.t)
      (prev : list Message.t) :
  (forall m, p m = q m) -> patch_message aid p prev = patch_message aid q prev.
Proof.
  intros H. apply map_ext. intros m. now rewrite H.
Qed.

Lemma patch_message_same (aid : string) (prev : list Message.t) :
  patch_message aid (fun m => m) prev = prev.
Proof.
  unfold patch_message. rewrite <- (map_id prev) at 2.
  apply map_ext. intros m. now destruct (Message.id m =? aid).
Qed.

(** Two patches in a row are one, as a patch keeps the [id]. *)
Lemma patch_message_twice (aid : string) (p q : Message.t -> Message.t)
      (prev : list Message.t) :
  (forall m, Message.id (p m) = Message.id m) ->
  patch_message aid q (patch_message aid p prev) =
  patch_message aid (fun m => q (p m)) prev.
Proof.
  intros Hid. unfold patch_message. rewrite map_map.
  apply map_ext. intros m.
  destruct (Message.id m =? aid) eqn:E; [now rewrite Hid, E | now rewrite E].
Qed.

Lemma updated_cons (event : StreamResponsePart) (events : list StreamResponsePart)
      (f : Frame UseChatStream.Closure) (aid : string) (m : Message.t) :
  first_end (event :: events) = None ->
  Answer.updated events (apply_update (UseChatStream.onStreamUpdate aid) event f)
          (Answer.updated [event] f m) =
  Answer.updated (event :: events) f m.
Proof.
  destruct event as [s a b|c|fa ts gt]; intros H; try discriminate;
    destruct events; cbn; rewrite ?append_empty_r, ?append_assoc; reflexivity.
Qed.

Lemma messages_apply_updates (aid : string) (events : list StreamResponsePart)
      (f : Frame UseChatStream.Closure) :
  first_end events = None ->
  messages (UseChatStream.hook
              (world (apply_updates (UseChatStream.onStreamUpdate aid) events f))) =
  patch_message aid (Answer.updated events f) (messages (UseChatStream.hook (world f))).
Proof.
  revert f. induction events as [|event events IH]; intros f H.
  - cbn. symmetry. apply patch_message_same.
  - rewrite apply_updates_cons, IH.
    + assert (H1 : messages (UseChatStream.hook
                               (world (apply_update (UseChatStream.onStreamUpdate aid)
                                                    event f))) =
                   patch_message aid (Answer.updated [event] f)
                                 (messages (UseChatStream.hook (world f)))).
      { destruct event as [s a b|c|fa ts gt]; try discriminate;
          cbn [apply_update world UseChatStream.onStreamUpdate UseChatStream.hook
               setMessages messages];
          apply patch_message_ext; intros m; cbn; now rewrite ?append_empty_r. }
      rewrite H1, patch_message_twice.
      * apply patch_message_ext. intros m. now apply updated_cons.
      * intros m. now destruct event.
    + now destruct event.
Qed.

(** What a run of updates leaves of [receivedSources] and of the hook's
    flags. *)
Lemma flags_apply_updates (aid : string) (events : list StreamResponsePart)
      (f : Frame UseChatStream.Closure) :
  first_end events = None ->
  UseChatStream.receivedSources (world f) = sources f ->
  let f' := apply_updates (UseChatStream.onStreamUpdate aid) events f in
  UseChatStream.receivedSources (world f') = latest_sources (sources f) events /\
  isLoading (UseChatStream.hook (world f')) = isLoading (UseChatStream.hook (world f)) /\
  apiError (UseChatStream.hook (world f')) = apiError (UseChatStream.hook (world f)) /\
  isInitialized (UseChatStream.hook (world f')) =
    isInitialized (UseChatStream.hook (world f)).
Proof.
  revert f. induction events as [|[s a b|c|fa ts gt] events IH]; intros f H Hrs;
    try discriminate; cbv zeta.
  - cbn. auto.
  - rewrite apply_updates_cons.
    destruct (IH (apply_update (UseChatStream.onStreamUpdate aid) (StreamMetadata s a b) f)
                 H eq_refl) as (E1 & E2 & E3 & E4).
    rewrite E1, E2, E3, E4. cbn. auto.
  - rewrite apply_updates_cons.
    destruct (IH (apply_update (UseChatStream.onStreamUpdate aid) (StreamChunk c) f)
                 H eq_refl) as (E1 & E2 & E3 & E4).
    rewrite E1, E2, E3, E4. cbn. auto.
Qed.

(** [sendMessage] on a streaming response, in terms of the events read. *)
Lemma sendMessage_streaming (question : string) (st : State)
      (response : Response) (reader : Reader) :
  isLoading st = false ->
  fetch question = Normal response ->
  ok response = true ->
  body response = Some reader ->
  UseChatStream.sendMessage JSON_parse fetch clock question st =
  UseChatStream.hook
    (settle (UseChatStream.onStreamEnd clock (assistant_id clock))
            (UseChatStream.onError clock (assistant_id clock))
            (ending (received JSON_parse reader) (read_failure reader))
            (world (apply_updates (UseChatStream.onStreamUpdate (assistant_id clock))
                      (before_end (received JSON_parse reader))
                      (mkFrame "" [] (UseChatStream.asking clock question st))))).
Proof.
  intros Hl Hf Hok Hb. unfold UseChatStream.sendMessage. rewrite Hl.
  now rewrite (@askQuestionStream_streaming _ JSON_parse fetch _ _ _
                 question response reader _ Hf Hok Hb).
Qed.

(** The assistant's message when [askQuestionStream] is called. *)
Lemma asking_answer (question : string) (st : State) :
  nth_error (messages (UseChatStream.hook (UseChatStream.asking clock question st)))
            (answer_index st) =
  Some (Message.make (assistant_id clock) Message.assistant " Let me think about that..."
          (date_loading clock) (Some []) (Some true) None None).
Proof.
  cbn. apply nth_error_answer_index.
Qed.

(** The assistant's message and the hook's flags once the updates of
    [events] are made. *)
Lemma asking_apply_updates (question : string) (st : State)
      (events : list StreamResponsePart) :
  first_end events = None ->
  let f' := apply_updates (UseChatStream.onStreamUpdate (assistant_id clock)) events
              (mkFrame "" [] (UseChatStream.asking clock question st)) in
  nth_error (messages (UseChatStream.hook (world f'))) (answer_index st) =
    Some (Message.make (assistant_id clock) Message.assistant
            match events with [] => " Let me think about that..." | _ :: _ => chunk_text events end
            (date_loading clock) (Some []) (Some true) None
            match events with [] => None | _ :: _ => Some (latest_sources [] events) end) /\
  UseChatStream.receivedSources (world f') = latest_sources [] events /\
  isLoading (UseChatStream.hook (world f')) = true /\
  apiError (UseChatStream.hook (world f')) = None.
Proof.
  intros Hend.
  destruct (flags_apply_updates (assistant_id clock) events
              (mkFrame "" [] (UseChatStream.asking clock question st)) Hend eq_refl)
    as (E1 & E2 & E3 & _).
  cbv zeta. rewrite E1, E2, E3, messages_apply_updates by exact Hend.
  rewrite nth_error_patch_message. cbn [world UseChatStream.hook].
  rewrite (asking_answer question st). cbn [option_map Message.id].
  rewrite String.eqb_refl. cbn.
  destruct events; auto.
Qed.

End HookFacts.

(* ================================================================== *)
(** * Successful sessions *)
(* ================================================================== *)

Section SessionFacts.
Import Js ApiStream Session Hook.
Local Open Scope string_scope.

Lemma before_end_session (srcs : list string) (found used : Z) (contents : list string)
      (fa ts gt : string) (further : list StreamResponsePart) :
  before_end (StreamMetadata srcs found used
                :: map StreamChunk contents ++ StreamEnd fa ts gt :: further) =
  StreamMetadata srcs found used :: map StreamChunk contents.
Proof.
  cbn [before_end]. f_equal.
  rewrite before_end_app, first_end_chunks. cbn. apply app_nil_r.
Qed.

Lemma first_end_session (srcs : list string) (found used : Z) (contents : list string)
      (fa ts gt : string) (further : list StreamResponsePart) :
  first_end (StreamMetadata srcs found used
               :: map StreamChunk contents ++ StreamEnd fa ts gt :: further) = Some fa.
Proof.
  cbn [first_end]. now rewrite first_end_app, first_end_chunks.
Qed.

Lemma updates_session (srcs : list string) (found used : Z) (contents : list string) :
  updates (StreamMetadata srcs found used :: map StreamChunk contents) =
  OnStreamUpdate "" srcs
    :: map (fun n => OnStreamUpdate (String.concat "" (firstn n contents)) srcs)
           (seq 1 (length contents)).
Proof.
  unfold updates. cbn [length seq map firstn chunk_text latest_sources].
  f_equal. rewrite length_map, <- (seq_shift (length contents) 1), map_map.
  apply map_ext. intros n. cbn [firstn chunk_text latest_sources].
  now rewrite firstn_map, chunk_text_chunks, latest_sources_chunks.
Qed.

End SessionFacts.

Section SuccessfulSession.
Import Js ApiStream Session Hook Backend.
Local Open Scope string_scope.

Variable JSON_parse : string -> Completion JSValue.
Variable fetch : string -> Completion Response.
Variable clock : Clock.

(** The session in which every event arrives.  When the events that the
    consumer obtains from the body are the events of a successful query (the
    metadata event, the chunk events and the end event that the generation
    orchestrator emits; reads that are cut between lines give this, see
    [received_whole_lines]), the concatenation, in order, of the [content] of
    all chunk events is the [full_answer] of the end event, and the content of
    the assistant's message when [sendMessage] is done is that full answer;
    the message carries the sources of the metadata event and is no longer
    loading. *)
Theorem stream_answer_is_full_answer
        (question : string) (st : State) (response : Response) (reader : Reader)
        (srcs : list string) (found used : Z) (increments : list string)
        (timestamp generation_time : string) :
  isLoading st = false ->
  fetch question = Normal response ->
  ok response = true ->
  body response = Some reader ->
  received JSON_parse reader =
    generation_events srcs found used increments timestamp generation_time ->
  let events := received JSON_parse reader in
  let final := UseChatStream.sendMessage JSON_parse fetch clock question st in
  first_end events = Some (chunk_text events) /\
  nth_error (messages final) (answer_index st) =
    Some (Message.make (assistant_id clock) Message.assistant (chunk_text events)
            (date_settled clock) (Some srcs) (Some false) None (Some srcs)) /\
  isLoading final = false.
Proof.
  intros Hl Hf Hok Hb Hev events final.
  assert (Htext : chunk_text events = String.concat "" increments).
  { unfold events. rewrite Hev. unfold generation_events.
    cbn [chunk_text]. rewrite chunk_text_app, chunk_text_chunks. cbn.
    apply append_empty_r. }
  assert (Hend : first_end events = Some (String.concat "" increments)).
  { unfold events. rewrite Hev. apply first_end_session. }
  assert (Hpre : before_end events = StreamMetadata srcs found used :: map StreamChunk increments).
  { unfold events. rewrite Hev. apply before_end_session. }
  split; [now rewrite Htext|].
  unfold final.
  rewrite (@sendMessage_streaming JSON_parse fetch clock question st response reader
             Hl Hf Hok Hb).
  fold events. unfold ending. rewrite Hend, Hpre.
  destruct (@asking_apply_updates clock question st
              (StreamMetadata srcs found used :: map StreamChunk increments))
    as (E1 & E2 & E3 & E4).
  { cbn. apply first_end_chunks. }
  cbn [settle UseChatStream.onStreamEnd UseChatStream.hook setIsLoading setMessages
       messages isLoading].
  split; [|reflexivity].
  rewrite nth_error_patch_message, E1, E2. cbn [option_map Message.id].
  rewrite String.eqb_refl. cbn [latest_sources chunk_text].
  rewrite latest_sources_chunks, Htext. reflexivity.
Qed.

(** C2.  In a session's event sequence (a metadata event, chunk events, an end
    event, and whatever is sent after it) the consumer handles the chunk
    events first in, first out: the metadata event is handled before the
    first chunk event, the [n]-th chunk event gives the update with the first
    [n] contents, and once the end event is handled no further event is
    processed and no further callback is made. *)
Theorem session_events_in_order
        (question : string) (response : Response) (reader : Reader)
        (srcs : list string) (found used : Z) (contents : list string)
        (full_answer timestamp generation_time : string)
        (further : list StreamResponsePart) :
  fetch question = Normal response ->
  ok response = true ->
  body response = Some reader ->
  received JSON_parse reader =
    (StreamMetadata srcs found used
       :: map StreamChunk contents
       ++ StreamEnd full_answer timestamp generation_time :: further)%list ->
  callbacks JSON_parse fetch question =
    (OnStreamUpdate "" srcs
       :: map (fun n => OnStreamUpdate (String.concat "" (firstn n contents)) srcs)
              (seq 1 (length contents))
       ++ [OnStreamEnd full_answer])%list.
Proof.
  intros Hf Hok Hb Hev.
  rewrite (@callbacks_streaming JSON_parse fetch question response reader Hf Hok Hb).
  unfold ending. rewrite Hev, first_end_session, before_end_session, updates_session.
  reflexivity.
Qed.

(** C6.  During the consumption of a stream the updates are the first
    callbacks, one for each metadata or chunk event processed and in their
    order, and the content that an update delivers is the concatenation, in
    order, of the [content] of the chunk events processed so far. *)
Theorem update_delivers_chunks_so_far
        (question : string) (response : Response) (reader : Reader) :
  fetch question = Normal response ->
  ok response = true ->
  body response = Some reader ->
  let processed := before_end (received JSON_parse reader) in
  let calls := callbacks JSON_parse fetch question in
  (forall n, n < length processed ->
     nth_error calls n =
       Some (OnStreamUpdate (chunk_text (firstn (S n) processed))
                            (latest_sources [] (firstn (S n) processed)))) /\
  (forall n content srcs,
     nth_error calls n = Some (OnStreamUpdate content srcs) ->
     n < length processed /\ content = chunk_text (firstn (S n) processed)).
Proof.
  intros Hf Hok Hb processed calls. unfold calls.
  rewrite (@callbacks_streaming JSON_parse fetch question response reader Hf Hok Hb).
  fold processed. split.
  - intros n Hn. rewrite nth_error_app1 by now rewrite updates_length.
    now apply updates_nth.
  - intros n content srcs H.
    destruct (Nat.lt_ge_cases n (length processed)) as [Hn|Hn].
    + split; [exact Hn|].
      rewrite nth_error_app1 in H by now rewrite updates_length.
      rewrite (updates_nth _ _ Hn) in H. now inversion H.
    + exfalso. rewrite nth_error_app2 in H by now rewrite updates_length.
      destruct (ending _ _); cbn in H;
        destruct (n - length (updates processed)) as [|[|k]]; cbn in H; discriminate.
Qed.

End SuccessfulSession.

(* ================================================================== *)
(** * Failures *)
(* ================================================================== *)

Section Failures.
Import Js ApiStream Session Hook.
Local Open Scope string_scope.

Variable JSON_parse : string -> Completion JSValue.
Variable fetch : string -> Completion Response.
Variable clock : Clock.

Lemma sendMessage_asks (question : string) (st : State) :
  isLoading st = false ->
  UseChatStream.sendMessage JSON_parse fetch clock question st =
  UseChatStream.hook
    (askQuestionStream JSON_parse fetch
       (UseChatStream.onStreamUpdate (assistant_id clock))
       (UseChatStream.onStreamEnd clock (assistant_id clock))
       (UseChatStream.onError clock (assistant_id clock))
       question (UseChatStream.asking clock question st)).
Proof.
  intros Hl. unfold UseChatStream.sendMessage. now rewrite Hl.
Qed.

(** What [onError] leaves of the assistant's message and of the flags. *)
Lemma onError_answer (errorMsg : string) (c : UseChatStream.Closure)
      (i : nat) (m : Message.t) :
  nth_error (messages (UseChatStream.hook c)) i = Some m ->
  Message.id m = assistant_id clock ->
  let st := UseChatStream.hook (UseChatStream.onError clock (assistant_id clock) errorMsg c) in
  nth_error (messages st) i =
    Some (Message.make (assistant_id clock) (Message.type m)
            "Sorry, I encountered an error during streaming. Please try again."
            (date_settled clock) (Message.sources m) (Some false) (Some errorMsg)
            (Message.source m)) /\
  apiError st = Some errorMsg /\
  isLoading st = false.
Proof.
  intros Hm Hid. cbn. rewrite nth_error_patch_message, Hm. cbn.
  rewrite Hid, String.eqb_refl. auto.
Qed.

(** Closes the hook's half of a failure: [slot] says what the assistant's
    message is when [onError] is called with [msg]. *)
Ltac error_notice msg slot :=
  let E1 := fresh "E" in
  let E2 := fresh "E" in
  let E3 := fresh "E" in
  destruct (onError_answer msg _ _ _ slot eq_refl) as (E1 & E2 & E3);
  split; [eexists; split; [exact E1 | cbn; auto] | auto].

(** C3.  For every query that fails (the fetch rejects, the response is not
    ok or has no body, or a read of the body rejects before an end event),
    whatever events were processed before: the client gets exactly one error
    signal, it is the last callback, so no update follows it, and the
    assistant's message holds the error notice in place of the text
    accumulated so far; the hook records the error and is no longer
    loading. *)
Theorem failure_discards_partial_answer
        (question : string) (st : State) (events : list StreamResponsePart) :
  isLoading st = false ->
  fails_after JSON_parse (fetch question) events ->
  let final := UseChatStream.sendMessage JSON_parse fetch clock question st in
  exists errorMsg : string,
    callbacks JSON_parse fetch question = (updates events ++ [OnError errorMsg])%list /\
    (exists m : Message.t,
        nth_error (messages final) (answer_index st) = Some m /\
        Message.content m =
          "Sorry, I encountered an error during streaming. Please try again." /\
        Message.error m = Some errorMsg /\
        Message.isLoading m = Some false) /\
    apiError final = Some errorMsg /\
    isLoading final = false.
Proof.
  intros Hl Hfail final. unfold final. rewrite (sendMessage_asks question st Hl).
  inversion Hfail as [e He | response Hok He | response Hok Hb He
                      | response reader e Hok Hb Hrf Hend He Hev]; subst; symmetry in He.
  - exists (or_else (message e) "Network error during streaming."). split.
    { exact (askQuestionStream_rejected _ JSON_parse fetch _ _ _ question e [] He). }
    rewrite (askQuestionStream_rejected _ JSON_parse fetch _ _ _ question e _ He).
    error_notice (or_else (message e) "Network error during streaming.")
                 (asking_answer clock question st).
  - exists (not_ok_message response). split.
    { exact (askQuestionStream_not_ok _ JSON_parse fetch _ _ _ question response [] He Hok). }
    rewrite (askQuestionStream_not_ok _ JSON_parse fetch _ _ _ question response _ He Hok).
    error_notice (not_ok_message response) (asking_answer clock question st).
  - exists "Failed to get readable stream from response.". split.
    { exact (askQuestionStream_no_body _ JSON_parse fetch _ _ _ question response []
               He Hok Hb). }
    rewrite (askQuestionStream_no_body _ JSON_parse fetch _ _ _ question response _
               He Hok Hb).
    error_notice "Failed to get readable stream from response."
                 (asking_answer clock question st).
  - exists (or_else (message e) "Network error during streaming."). split.
    { rewrite (callbacks_streaming JSON_parse fetch question response reader He Hok Hb).
      unfold ending. rewrite Hend, Hrf, (before_end_no_end _ Hend). reflexivity. }
    rewrite (askQuestionStream_streaming _ JSON_parse fetch _ _ _
               question response reader _ He Hok Hb).
    cbv zeta. unfold ending. rewrite Hend, Hrf, (before_end_no_end _ Hend).
    cbn [settle].
    destruct (asking_apply_updates clock question st (received JSON_parse reader) Hend)
      as (A1 & _).
    error_notice (or_else (message e) "Network error during streaming.") A1.
Qed.

(** A body that is exhausted before any end event: no terminal callback is
    made and the hook stays loading. *)
Lemma exhausted_without_terminal
      (question : string) (st : State) (response : Response) (reader : Reader) :
  isLoading st = false ->
  fetch question = Normal response ->
  ok response = true ->
  body response = Some reader ->
  read_failure reader = None ->
  first_end (received JSON_parse reader) = None ->
  callbacks JSON_parse fetch question = updates (received JSON_parse reader) /\
  existsb is_terminal (callbacks JSON_parse fetch question) = false /\
  isLoading (UseChatStream.sendMessage JSON_parse fetch clock question st) = true.
Proof.
  intros Hl Hf Hok Hb Hrf Hend.
  assert (Hc : callbacks JSON_parse fetch question = updates (received JSON_parse reader)).
  { rewrite (@callbacks_streaming JSON_parse fetch question response reader Hf Hok Hb).
    unfold ending. rewrite Hend, Hrf, (before_end_no_end _ Hend). apply app_nil_r. }
  split; [exact Hc|]. split; [rewrite Hc; apply updates_not_terminal|].
  rewrite (@sendMessage_streaming JSON_parse fetch clock question st response reader
             Hl Hf Hok Hb).
  unfold ending. rewrite Hend, Hrf, (before_end_no_end _ Hend). cbn [settle].
  now destruct (@asking_apply_updates clock question st (received JSON_parse reader) Hend)
    as (_ & _ & A3 & _).
Qed.

End Failures.

Section ExhaustedBody.
Local Open Scope string_scope.

(** C8.  A response whose body delivers a metadata event and two chunk events
    and is then exhausted: [askQuestionStream] makes the three updates and
    neither [onStreamEnd] nor [onError], and [sendMessage] leaves the hook
    loading. *)
Theorem exhausted_stream_gets_no_terminal_callback :
  Session.callbacks Json.JSON_parse (Demo.fetch_of Demo.exhausted_reader) Demo.question =
    [Session.OnStreamUpdate "" ["history.pdf"; "https://en.wikipedia.org/wiki/Nigeria"];
     Session.OnStreamUpdate "Nigeria " ["history.pdf"; "https://en.wikipedia.org/wiki/Nigeria"];
     Session.OnStreamUpdate "Nigeria gained "
       ["history.pdf"; "https://en.wikipedia.org/wiki/Nigeria"]] /\
  Hook.isLoading
    (UseChatStream.sendMessage Json.JSON_parse (Demo.fetch_of Demo.exhausted_reader)
       Demo.clock Demo.question Demo.idle) = true.
Proof.
  split; vm_compute; reflexivity.
Qed.

End ExhaustedBody.

(* ================================================================== *)
(** * Lines that are not JSON *)
(* ================================================================== *)

Section SkippedLines.
Import Js ApiStream Session.
Local Open Scope string_scope.
Local Open Scope list_scope.

Variable S : Type.
Variable JSON_parse : string -> Completion JSValue.
Variable onStreamUpdate : string -> list string -> S -> S.
Variable onStreamEnd : string -> S -> S.
Variable onError : string -> S -> S.

Lemma events_of_lines_app (a b : list string) :
  events_of_lines JSON_parse (a ++ b) =
  (events_of_lines JSON_parse a ++ events_of_lines JSON_parse b)%list.
Proof.
  induction a as [|line a IH]; cbn; [reflexivity|].
  destruct (event_of_line JSON_parse line); cbn; now rewrite IH.
Qed.

Lemma received_replace (pre post : Reader) (chunk chunk' : string) :
  events_of_lines JSON_parse (lines_of chunk) = events_of_lines JSON_parse (lines_of chunk') ->
  received JSON_parse (pre ++ Normal chunk :: post) =
  received JSON_parse (pre ++ Normal chunk' :: post).
Proof.
  intros H. induction pre as [|[c|e] pre IH]; cbn; [now rewrite H | now rewrite IH | reflexivity].
Qed.

Lemma read_failure_replace (pre post : Reader) (chunk chunk' : string) :
  read_failure (pre ++ Normal chunk :: post) = read_failure (pre ++ Normal chunk' :: post).
Proof.
  induction pre as [|[c|e] pre IH]; cbn; auto.
Qed.

(** C10.  A line of a read that is not valid JSON once an optional leading
    [data: ] is removed is skipped: its iteration changes neither
    [accumulatedContent] nor [sources] nor the callbacks' state and goes on to
    the next line; the lines after it are processed as if it were not there;
    and the whole call makes the callbacks, [onError] included, that it makes
    on the same body without that line. *)
Theorem invalid_json_line_is_skipped (line : string) (e : Error) :
  JSON_parse (if startsWith line "data: " then substring line 6 else line) = Throw e ->
  (forall f : Frame S,
      line_body JSON_parse onStreamUpdate onStreamEnd line f = (Normal Next, f)) /\
  (forall (before after : list string) (f : Frame S),
      for_lines JSON_parse onStreamUpdate onStreamEnd (before ++ line :: after) f =
      for_lines JSON_parse onStreamUpdate onStreamEnd (before ++ after) f) /\
  (forall (fetch fetch' : string -> Completion Response) (question : string)
          (pre post : Reader) (chunk chunk' : string) (before after : list string) (w : S),
      lines_of chunk = (before ++ line :: after)%list ->
      lines_of chunk' = (before ++ after)%list ->
      fetch question = Normal (streaming (pre ++ Normal chunk :: post)) ->
      fetch' question = Normal (streaming (pre ++ Normal chunk' :: post)) ->
      askQuestionStream JSON_parse fetch onStreamUpdate onStreamEnd onError question w =
      askQuestionStream JSON_parse fetch' onStreamUpdate onStreamEnd onError question w).
Proof.
  intros Hparse.
  assert (Hnone : event_of_line JSON_parse line = None).
  { unfold event_of_line. destruct (trim _ =? ""); [reflexivity | now rewrite Hparse]. }
  assert (Hsame : forall before after,
             events_of_lines JSON_parse (before ++ line :: after) =
             events_of_lines JSON_parse (before ++ after)).
  { intros before after. rewrite !events_of_lines_app. cbn. now rewrite Hnone. }
  split; [|split].
  - intros f. rewrite line_body_event. now rewrite Hnone.
  - intros before after f. rewrite !for_lines_events. cbv zeta. now rewrite Hsame.
  - intros fetch fetch' question pre post chunk chunk' before after w Hc Hc' Hf Hf'.
    rewrite (askQuestionStream_streaming S JSON_parse fetch _ _ _ question _ _ w
               Hf eq_refl eq_refl).
    rewrite (askQuestionStream_streaming S JSON_parse fetch' _ _ _ question _ _ w
               Hf' eq_refl eq_refl).
    cbv zeta.
    rewrite (received_replace pre post chunk chunk'), (read_failure_replace pre post chunk chunk').
    + reflexivity.
    + rewrite Hc, Hc'. apply Hsame.
Qed.

End SkippedLines.

(* ================================================================== *)
(** * The data that [askQuestion] returns *)
(* ================================================================== *)

Section ResponseData.
Import Js.
Local Open Scope string_scope.
Local Open Scope list_scope.




End ResponseData.

(* ================================================================== *)
(** * The request/response variant *)
(* ================================================================== *)

Section RequestResponse.
Import Js ApiStream Session Hook.
Local Open Scope string_scope.
Local Open Scope list_scope.

Variable JSON_parse : string -> Completion JSValue.
Variable fetch : string -> Completion Response.
Variable post : string -> Z -> Api.Settled QuestionResponse.t.
Variable clock : Clock.

(** The assistant's message and the flags after the request/response
    variant's [sendMessage] got its answer. *)
Lemma sendMessage_answered (question : string) (st : State) (r : QuestionResponse.t) :
  isLoading st = false ->
  post question 5 = Api.Fulfilled r ->
  let final := UseChat.sendMessage post clock question st in
  nth_error (messages final) (answer_index st) =
    Some (Message.make (assistant_id clock) Message.assistant (QuestionResponse.answer r)
            (date_settled clock) (Some (QuestionResponse.sources r)) (Some false)
            None None) /\
  isLoading final = false /\
  apiError final = None.
Proof.
  intros Hl Hp. unfold UseChat.sendMessage, Api.askQuestion, Api.apiClient_post.
  rewrite Hl, Hp.
  cbn [setIsLoading setApiError setMessages messages isLoading apiError isInitialized].
  rewrite nth_error_patch_message, <- app_assoc. cbn [app].
  rewrite nth_error_answer_index. cbn [option_map Message.id].
  rewrite String.eqb_refl. auto.
Qed.

(** On an answer and its equivalent stream the two variants end in the same
    state, as far as the [Message] interface goes: the streaming variant only
    leaves the [source] property behind. *)
Lemma declared_states_agree
      (question : string) (st : State) (r : QuestionResponse.t)
      (response : Response) (reader : Reader)
      (contents : list string) (timestamp generation_time : string) :
  isLoading st = false ->
  post question 5 = Api.Fulfilled r ->
  fetch question = Normal response ->
  ok response = true ->
  body response = Some reader ->
  received JSON_parse reader =
    (StreamMetadata (QuestionResponse.sources r)
                    (QuestionResponse.relevant_chunks_found r)
                    (QuestionResponse.context_chunks_used r)
       :: map StreamChunk contents
       ++ [StreamEnd (QuestionResponse.answer r) timestamp generation_time])%list ->
  declared (UseChatStream.sendMessage JSON_parse fetch clock question st) =
  declared (UseChat.sendMessage post clock question st).
Proof.
  intros Hl Hp Hf Hok Hb Hev.
  rewrite (sendMessage_streaming JSON_parse fetch clock question st response reader
             Hl Hf Hok Hb).
  unfold ending. rewrite Hev, first_end_session, before_end_session.
  set (pre := StreamMetadata (QuestionResponse.sources r)
                (QuestionResponse.relevant_chunks_found r)
                (QuestionResponse.context_chunks_used r) :: map StreamChunk contents).
  assert (Hpre : first_end pre = None) by (cbn; apply first_end_chunks).
  destruct (flags_apply_updates (assistant_id clock) pre
              (mkFrame "" [] (UseChatStream.asking clock question st)) Hpre eq_refl)
    as (E1 & E2 & E3 & E4).
  cbv zeta in E1, E2, E3, E4.
  unfold UseChat.sendMessage, Api.askQuestion, Api.apiClient_post. rewrite Hl, Hp.
  unfold declared.
  cbn [settle UseChatStream.onStreamEnd UseChatStream.hook setIsLoading setApiError
       setMessages messages isLoading apiError isInitialized].
  rewrite E1, E3, E4, (messages_apply_updates (assistant_id clock) pre _ Hpre).
  cbn [world UseChatStream.hook UseChatStream.asking setIsLoading setApiError
       setMessages messages isLoading apiError isInitialized sources latest_sources pre].
  rewrite latest_sources_chunks.
  f_equal.
  rewrite patch_message_twice by (intros m; now destruct pre).
  unfold patch_message. rewrite !map_map, <- app_assoc, !map_app.
  f_equal.
  - apply map_ext. intros m. unfold assistant_id.
    destruct (Message.id m =? "assistant-" ++ Number_toString (now_assistant clock));
      reflexivity.
  - unfold assistant_id. cbn [map app Message.id].
    rewrite String.eqb_refl. reflexivity.
Qed.

(** The two variants when every event arrives.  For every question, every
    answer of the backend and a body from which the consumer obtains the event
    stream that is equivalent to it (a metadata event with the answer's
    sources and counts, chunk events, an end event with the answer's text),
    the two variants of [sendMessage], started in the same state, end with the
    same content and the same sources in the assistant's message, namely the
    answer's; indeed they end in the same state, but for the [source]
    property that the streaming variant leaves on the message. *)
Theorem streaming_agrees_with_request_response
        (question : string) (st : State) (r : QuestionResponse.t)
        (response : Response) (reader : Reader)
        (contents : list string) (timestamp generation_time : string) :
  isLoading st = false ->
  post question 5 = Api.Fulfilled r ->
  fetch question = Normal response ->
  ok response = true ->
  body response = Some reader ->
  received JSON_parse reader =
    (StreamMetadata (QuestionResponse.sources r)
                    (QuestionResponse.relevant_chunks_found r)
                    (QuestionResponse.context_chunks_used r)
       :: map StreamChunk contents
       ++ [StreamEnd (QuestionResponse.answer r) timestamp generation_time])%list ->
  let streamed := UseChatStream.sendMessage JSON_parse fetch clock question st in
  let requested := UseChat.sendMessage post clock question st in
  (exists m m' : Message.t,
      nth_error (messages streamed) (answer_index st) = Some m /\
      nth_error (messages requested) (answer_index st) = Some m' /\
      Message.content m = Message.content m' /\
      Message.sources m = Message.sources m' /\
      Message.content m' = QuestionResponse.answer r /\
      Message.sources m' = Some (QuestionResponse.sources r)) /\
  declared streamed = declared requested.
Proof.
  intros Hl Hp Hf Hok Hb Hev streamed requested.
  split;
    [|exact (declared_states_agree question st r response reader contents
               timestamp generation_time Hl Hp Hf Hok Hb Hev)].
  destruct (sendMessage_answered question st r Hl Hp) as (B1 & B2 & B3).
  fold requested in B1, B2, B3.
  unfold streamed.
  rewrite (sendMessage_streaming JSON_parse fetch clock question st response reader
             Hl Hf Hok Hb).
  unfold ending. rewrite Hev, first_end_session, before_end_session.
  destruct (asking_apply_updates clock question st
              (StreamMetadata (QuestionResponse.sources r)
                 (QuestionResponse.relevant_chunks_found r)
                 (QuestionResponse.context_chunks_used r) :: map StreamChunk contents))
    as (E1 & E2 & E3 & E4).
  { cbn. apply first_end_chunks. }
  cbn [settle UseChatStream.onStreamEnd UseChatStream.hook setIsLoading setMessages
       messages isLoading apiError].
  rewrite nth_error_patch_message, E1, E2, B1.
  cbn [option_map Message.id]. rewrite String.eqb_refl.
  cbn [latest_sources]. rewrite latest_sources_chunks.
  eexists _, _. repeat split.
Qed.

(** C9.  A call of [sendMessage] made while [isLoading] is true returns the
    hook's state as it was, in both variants and whatever the network would
    answer: no message is added, and [isLoading] and [apiError] keep their
    values. *)
Theorem sendMessage_while_loading_changes_nothing (question : string) (st : State) :
  isLoading st = true ->
  UseChatStream.sendMessage JSON_parse fetch clock question st = st /\
  UseChat.sendMessage post clock question st = st.
Proof.
  intros Hl. unfold UseChatStream.sendMessage, UseChat.sendMessage.
  now rewrite Hl.
Qed.

End RequestResponse.

(* ================================================================== *)
(** * Read boundaries *)
(* ================================================================== *)

Section ReadBoundaries.
Import Js ApiStream Session.
Local Open Scope string_scope.
Local Open Scope list_scope.

Variable JSON_parse : string -> Completion JSValue.

(** When every read carries whole lines, the events received are those of the
    lines, however the lines are grouped into reads. *)
Lemma received_whole_lines (reads : list (list string)) :
  forallb (forallb whole_line) reads = true ->
  received JSON_parse (map (fun lines => Normal (join_lines lines)) reads) =
  events_of_lines JSON_parse (concat reads).
Proof.
  induction reads as [|lines reads IH]; cbn [map received concat forallb]; intros H.
  - reflexivity.
  - apply andb_true_iff in H. destruct H as [Hl Hr].
    rewrite (lines_of_join_lines lines Hl), (IH Hr).
    symmetry. apply events_of_lines_app.
Qed.

(** In particular, when the lines are whole and each one is the line of an
    event, the events received are these events in their order. *)
Lemma received_lines_of_events (reads : list (list string))
      (events : list StreamResponsePart) :
  forallb (forallb whole_line) reads = true ->
  Forall2 (fun line event => event_of_line JSON_parse line = Some event)
          (concat reads) events ->
  received JSON_parse (map (fun lines => Normal (join_lines lines)) reads) = events.
Proof.
  intros Hw Hev. rewrite (received_whole_lines reads Hw).
  induction Hev as [|line event lines events Hline _ IH]; cbn; [reflexivity|].
  now rewrite Hline, IH.
Qed.

(** A line that arrives in two reads yields no event: the consumer keeps no
    rest of a read for the next one. *)
Example line_split_across_reads :
  let line := Backend.line_of_event (StreamChunk "gained ") in
  received Json.JSON_parse [Normal (join_lines [line])] = [StreamChunk "gained "] /\
  received Json.JSON_parse
    [Normal (String.substring 0 25 line);
     Normal (String.substring 25 100 line ++ String LF "")%string] = [].
Proof.
  split; vm_compute; reflexivity.
Qed.

End ReadBoundaries.

(* ================================================================== *)
(** * Reads that end inside a line *)
(* ================================================================== *)

Section SplitLines.
Import Js ApiStream Session Hook.
Local Open Scope string_scope.
Local Open Scope list_scope.

(** C1, where it fails.  The body of the demo session is the text of a
    successful query stream: read in one piece it gives the metadata event,
    the three chunk events and the end event, whose [full_answer] is the
    concatenation of the chunk contents, and the assistant's message ends with
    that text.  The same text delivered in three reads that end at the
    offsets 150 (inside the line of the first chunk event) and 300 (inside the
    line of the end event) loses both events: each part of a cut line fails to
    parse and is skipped.  There are three updates and no terminal callback,
    and the assistant's message is left loading with the content
    [gained independence in 1960.], which is not the full answer. *)
Theorem split_lines_lose_the_full_answer :
  let body := Cut.text Demo.events in
  let srcs := ["history.pdf"; "https://en.wikipedia.org/wiki/Nigeria"] in
  let whole :=
    UseChatStream.sendMessage Json.JSON_parse (Demo.fetch_of [Normal body])
      Demo.clock Demo.question Demo.idle in
  let split :=
    UseChatStream.sendMessage Json.JSON_parse (Demo.fetch_of (Cut.reader [150; 300] body))
      Demo.clock Demo.question Demo.idle in
  String.length body = 413 /\
  String.concat "" (Cut.pieces 0 [150; 300] body) = body /\
  received Json.JSON_parse [Normal body] = Demo.events /\
  first_end Demo.events = Some (chunk_text Demo.events) /\
  chunk_text Demo.events = "Nigeria gained independence in 1960." /\
  nth_error (messages whole) (answer_index Demo.idle) =
    Some (Message.make (assistant_id Demo.clock) Message.assistant
            "Nigeria gained independence in 1960." (date_settled Demo.clock)
            (Some srcs) (Some false) None (Some srcs)) /\
  isLoading whole = false /\
  received Json.JSON_parse (Cut.reader [150; 300] body) =
    [Demo.metadata; StreamChunk "gained "; StreamChunk "independence in 1960."] /\
  callbacks Json.JSON_parse (Demo.fetch_of (Cut.reader [150; 300] body)) Demo.question =
    [OnStreamUpdate "" srcs;
     OnStreamUpdate "gained " srcs;
     OnStreamUpdate "gained independence in 1960." srcs] /\
  nth_error (messages split) (answer_index Demo.idle) =
    Some (Message.make (assistant_id Demo.clock) Message.assistant
            "gained independence in 1960." (date_loading Demo.clock)
            (Some []) (Some true) None (Some srcs)) /\
  isLoading split = true.
Proof.
  cbv zeta. repeat split; vm_compute; reflexivity.
Qed.

(** C4, where it fails.  [Demo.response] is the backend's answer and the
    demo body the text of the equivalent stream.  Delivered in two reads that
    end at the offset 300, inside the line of the end event, the stream
    leaves the assistant's message of the streaming variant loading, with the
    empty [sources] it was created with, while the request/response variant
    shows the answer with its two sources: the final sources differ, and so
    do the two states as the [Message] interface has them.  With a second cut
    at 150 the content differs as well. *)
Theorem split_end_line_breaks_the_agreement :
  let body := Cut.text Demo.events in
  let srcs := ["history.pdf"; "https://en.wikipedia.org/wiki/Nigeria"] in
  let streamed :=
    UseChatStream.sendMessage Json.JSON_parse (Demo.fetch_of (Cut.reader [300] body))
      Demo.clock Demo.question Demo.idle in
  let requested := UseChat.sendMessage Demo.post Demo.clock Demo.question Demo.idle in
  String.concat "" (Cut.pieces 0 [300] body) = body /\
  received Json.JSON_parse [Normal body] =
    StreamMetadata (QuestionResponse.sources Demo.response)
      (QuestionResponse.relevant_chunks_found Demo.response)
      (QuestionResponse.context_chunks_used Demo.response)
    :: map StreamChunk Demo.increments
    ++ [StreamEnd (QuestionResponse.answer Demo.response) "2025-01-01T12:00:00" "1.2s"] /\
  received Json.JSON_parse (Cut.reader [300] body) =
    Demo.metadata :: map StreamChunk Demo.increments /\
  nth_error (messages requested) (answer_index Demo.idle) =
    Some (Message.make (assistant_id Demo.clock) Message.assistant
            "Nigeria gained independence in 1960." (date_settled Demo.clock)
            (Some srcs) (Some false) None None) /\
  isLoading requested = false /\
  nth_error (messages streamed) (answer_index Demo.idle) =
    Some (Message.make (assistant_id Demo.clock) Message.assistant
            "Nigeria gained independence in 1960." (date_loading Demo.clock)
            (Some []) (Some true) None (Some srcs)) /\
  isLoading streamed = true /\
  declared streamed <> declared requested /\
  option_map Message.content
    (nth_error
       (messages
          (UseChatStream.sendMessage Json.JSON_parse
             (Demo.fetch_of (Cut.reader [150; 300] body))
             Demo.clock Demo.question Demo.idle))
       (answer_index Demo.idle)) =
    Some "gained independence in 1960.".
Proof.
  cbv zeta. repeat split; try (vm_compute; reflexivity).
  intros H. vm_compute in H. discriminate H.
Qed.

End SplitLines.

(* ================================================================== *)
(** * The theorems on a session *)
(* ================================================================== *)

Section OnTheDemoSession.
Import Js ApiStream Session Hook.
Local Open Scope string_scope.
Local Open Scope list_scope.

Lemma stream_answer_is_full_answer_witness :
  received Json.JSON_parse Demo.reader = Demo.events /\
  let events := received Json.JSON_parse Demo.reader in
  let final := UseChatStream.sendMessage Json.JSON_parse (Demo.fetch_of Demo.reader)
                 Demo.clock Demo.question Demo.idle in
  first_end events = Some (chunk_text events) /\
  nth_error (messages final) (answer_index Demo.idle) =
    Some (Message.make (assistant_id Demo.clock) Message.assistant (chunk_text events)
            (date_settled Demo.clock)
            (Some ["history.pdf"; "https://en.wikipedia.org/wiki/Nigeria"]) (Some false) None
            (Some ["history.pdf"; "https://en.wikipedia.org/wiki/Nigeria"])) /\
  isLoading final = false.
Proof.
  split; [vm_compute; reflexivity|].
  apply (stream_answer_is_full_answer Json.JSON_parse (Demo.fetch_of Demo.reader) Demo.clock
           Demo.question Demo.idle (streaming Demo.reader) Demo.reader
           ["history.pdf"; "https://en.wikipedia.org/wiki/Nigeria"] 2 2 Demo.increments
           "2025-01-01T12:00:00" "1.2s");
    reflexivity.
Defined.

Lemma session_events_in_order_witness :
  callbacks Json.JSON_parse (Demo.fetch_of Demo.reader_with_late_chunk) Demo.question =
    OnStreamUpdate "" ["history.pdf"; "https://en.wikipedia.org/wiki/Nigeria"]
      :: map (fun n => OnStreamUpdate (String.concat "" (firstn n Demo.increments))
                         ["history.pdf"; "https://en.wikipedia.org/wiki/Nigeria"])
             (seq 1 (length Demo.increments))
      ++ [OnStreamEnd "Nigeria gained independence in 1960."].
Proof.
  apply (session_events_in_order Json.JSON_parse (Demo.fetch_of Demo.reader_with_late_chunk)
           Demo.question (streaming Demo.reader_with_late_chunk) Demo.reader_with_late_chunk
           ["history.pdf"; "https://en.wikipedia.org/wiki/Nigeria"] 2 2 Demo.increments
           "Nigeria gained independence in 1960." "2025-01-01T12:00:00" "1.2s"
           [StreamChunk "More."]);
    reflexivity.
Defined.

Lemma failure_discards_partial_answer_witness :
  let final := UseChatStream.sendMessage Json.JSON_parse (Demo.fetch_of Demo.failing_reader)
                 Demo.clock Demo.question Demo.idle in
  exists errorMsg : string,
    callbacks Json.JSON_parse (Demo.fetch_of Demo.failing_reader) Demo.question =
      updates [Demo.metadata; StreamChunk "Nigeria "; StreamChunk "gained "]
        ++ [OnError errorMsg] /\
    (exists m : Message.t,
        nth_error (messages final) (answer_index Demo.idle) = Some m /\
        Message.content m =
          "Sorry, I encountered an error during streaming. Please try again." /\
        Message.error m = Some errorMsg /\
        Message.isLoading m = Some false) /\
    apiError final = Some errorMsg /\
    isLoading final = false.
Proof.
  apply (failure_discards_partial_answer Json.JSON_parse (Demo.fetch_of Demo.failing_reader)
           Demo.clock Demo.question Demo.idle
           [Demo.metadata; StreamChunk "Nigeria "; StreamChunk "gained "]).
  - reflexivity.
  - apply (@read_rejects Json.JSON_parse (streaming Demo.failing_reader) Demo.failing_reader
             (mkError "network error")); vm_compute; reflexivity.
Defined.

Lemma update_delivers_chunks_so_far_witness :
  nth_error (callbacks Json.JSON_parse (Demo.fetch_of Demo.reader) Demo.question) 2 =
  Some (OnStreamUpdate
          (chunk_text (firstn 3 (before_end (received Json.JSON_parse Demo.reader))))
          (latest_sources [] (firstn 3 (before_end (received Json.JSON_parse Demo.reader))))).
Proof.
  apply (proj1 (update_delivers_chunks_so_far Json.JSON_parse (Demo.fetch_of Demo.reader)
                  Demo.question (streaming Demo.reader) Demo.reader
                  eq_refl eq_refl eq_refl)).
  vm_compute. lia.
Defined.

Lemma invalid_json_line_is_skipped_witness :
  Json.JSON_parse Demo.broken_line = Throw (mkError "Unexpected token in JSON") /\
  line_body Json.JSON_parse log_update log_end Demo.broken_line
    (mkFrame "Nigeria " ["history.pdf"] [OnStreamUpdate "Nigeria " ["history.pdf"]]) =
  (Normal Next,
   mkFrame "Nigeria " ["history.pdf"] [OnStreamUpdate "Nigeria " ["history.pdf"]]).
Proof.
  split; [vm_compute; reflexivity|].
  apply (proj1 (invalid_json_line_is_skipped (list Callback) Json.JSON_parse
                  log_update log_end log_error Demo.broken_line
                  (mkError "Unexpected token in JSON") eq_refl)).
Defined.

Lemma streaming_agrees_with_request_response_witness :
  let streamed := UseChatStream.sendMessage Json.JSON_parse (Demo.fetch_of Demo.reader)
                    Demo.clock Demo.question Demo.idle in
  let requested := UseChat.sendMessage Demo.post Demo.clock Demo.question Demo.idle in
  (exists m m' : Message.t,
      nth_error (messages streamed) (answer_index Demo.idle) = Some m /\
      nth_error (messages requested) (answer_index Demo.idle) = Some m' /\
      Message.content m = Message.content m' /\
      Message.sources m = Message.sources m' /\
      Message.content m' = QuestionResponse.answer Demo.response /\
      Message.sources m' = Some (QuestionResponse.sources Demo.response)) /\
  declared streamed = declared requested.
Proof.
  apply (streaming_agrees_with_request_response Json.JSON_parse (Demo.fetch_of Demo.reader)
           Demo.post Demo.clock Demo.question Demo.idle Demo.response
           (streaming Demo.reader) Demo.reader Demo.increments
           "2025-01-01T12:00:00" "1.2s");
    reflexivity.
Defined.

Lemma sendMessage_while_loading_changes_nothing_witness :
  UseChatStream.sendMessage Json.JSON_parse (Demo.fetch_of Demo.reader) Demo.clock
    Demo.question Demo.busy = Demo.busy /\
  UseChat.sendMessage Demo.post Demo.clock Demo.question Demo.busy = Demo.busy.
Proof.
  apply (sendMessage_while_loading_changes_nothing Json.JSON_parse
           (Demo.fetch_of Demo.reader) Demo.post Demo.clock Demo.question Demo.busy).
  reflexivity.
Defined.

End OnTheDemoSession.

(* ================================================================== *)
(** * More on [askQuestionStream] *)
(* ================================================================== *)

Section StreamInvariants.
Import Js ApiStream Session.
Local Open Scope string_scope.
Local Open Scope list_scope.

Variable S : Type.
Variable JSON_parse : string -> Completion JSValue.
Variable fetch : string -> Completion Response.
Variable onStreamUpdate : string -> list string -> S -> S.
Variable onStreamEnd : string -> S -> S.
Variable onError : string -> S -> S.

Lemma apply_updates_preserves (P : S -> Prop) (events : list StreamResponsePart)
      (f : Frame S) :
  (forall content srcs w, P w -> P (onStreamUpdate content srcs w)) ->
  P (world f) -> P (world (apply_updates onStreamUpdate events f)).
Proof.
  intros Hu. revert f.
  induction events as [|[s a b|c|fa ts gt] events IH]; intros f Hf;
    [exact Hf | rewrite apply_updates_cons; apply IH; cbn; now apply Hu ..
     | rewrite apply_updates_cons; now apply IH].
Qed.

(** [askQuestionStream] acts on the callbacks' state through the three
    callbacks only: what they all preserve, the call preserves. *)
Lemma askQuestionStream_preserves (P : S -> Prop) (question : string) (w : S) :
  (forall content srcs w, P w -> P (onStreamUpdate content srcs w)) ->
  (forall fullAnswer w, P w -> P (onStreamEnd fullAnswer w)) ->
  (forall errorMsg w, P w -> P (onError errorMsg w)) ->
  P w ->
  P (askQuestionStream JSON_parse fetch onStreamUpdate onStreamEnd onError question w).
Proof.
  intros Hu He Hr Hw.
  destruct (fetch question) as [response|e] eqn:Hf.
  - destruct (ok response) eqn:Hok.
    + destruct (body response) as [reader|] eqn:Hb.
      * rewrite (askQuestionStream_streaming S JSON_parse fetch _ _ _ question
                   response reader w Hf Hok Hb).
        cbv zeta.
        assert (Hp : P (world (apply_updates onStreamUpdate
                                  (before_end (received JSON_parse reader))
                                  (mkFrame "" [] w))))
          by now apply apply_updates_preserves.
        destruct (ending _ _); cbn [settle]; auto.
      * rewrite (askQuestionStream_no_body S JSON_parse fetch _ _ _ question
                   response w Hf Hok Hb). now apply Hr.
    + rewrite (askQuestionStream_not_ok S JSON_parse fetch _ _ _ question
                 response w Hf Hok). now apply Hr.
  - rewrite (askQuestionStream_rejected S JSON_parse fetch _ _ _ question e w Hf).
    now apply Hr.
Qed.

End StreamInvariants.

Section StreamExtras.
Import Js ApiStream Session.
Local Open Scope string_scope.
Local Open Scope list_scope.

Variable JSON_parse : string -> Completion JSValue.
Variable fetch : string -> Completion Response.

Lemma or_else_not_empty (a b : string) : b <> "" -> or_else a b <> "".
Proof.
  intros Hb. unfold or_else. destruct (String.eqb_spec a ""); assumption.
Qed.

Lemma not_ok_message_not_empty (response : Response) : not_ok_message response <> "".
Proof.
  unfold not_ok_message. destruct (json response); now apply or_else_not_empty.
Qed.

Lemma in_updates_not_terminal (events : list StreamResponsePart) (c : Callback) :
  In c (updates events) -> is_terminal c = false.
Proof.
  unfold updates. intros H. apply in_map_iff in H. destruct H as (n & <- & _).
  reflexivity.
Qed.

(** X1.  Whatever the network and the parser do, a terminal callback
    ([onStreamEnd] or [onError]) is the last callback of the call: no update
    and no second terminal callback follows it. *)
Theorem terminal_callback_is_last (question : string)
        (before after : list Callback) (c : Callback) :
  callbacks JSON_parse fetch question = before ++ c :: after ->
  is_terminal c = true ->
  after = [].
Proof.
  intros Hc Ht.
  destruct (callbacks_shape JSON_parse fetch question) as (us & t & Hs & Hus & _ & Hlen).
  rewrite Hs in Hc.
  assert (Hin : forall l, us = l -> In c l -> False).
  { intros l <- Hin.
    assert (Hex : existsb is_terminal us = true)
      by (apply existsb_exists; now exists c).
    congruence. }
  destruct t as [|x [|y t]]; [| |cbn in Hlen; lia].
  - rewrite app_nil_r in Hc. exfalso. apply (Hin _ Hc). apply in_elt.
  - destruct after as [|a after]; [reflexivity|]. exfalso.
    destruct (exists_last (l := a :: after)) as (l' & z & Hz); [discriminate|].
    rewrite Hz in Hc.
    assert (Hre : before ++ c :: l' ++ [z] = (before ++ c :: l') ++ [z])
      by now rewrite <- app_assoc.
    rewrite Hre in Hc. apply app_inj_tail in Hc. destruct Hc as [Hc _].
    apply (Hin _ Hc). apply in_elt.
Qed.

(** X2.  [onError] is never called with an empty message: an error without
    message text is reported as a network error. *)
Theorem onError_message_is_not_empty (question : string) (errorMsg : string) :
  In (OnError errorMsg) (callbacks JSON_parse fetch question) ->
  errorMsg <> "".
Proof.
  intros Hin.
  destruct (fetch question) as [response|e] eqn:Hf.
  - destruct (ok response) eqn:Hok.
    + destruct (body response) as [reader|] eqn:Hb.
      * rewrite (callbacks_streaming JSON_parse fetch question response reader Hf Hok Hb)
          in Hin.
        apply in_app_or in Hin. destruct Hin as [Hin|Hin].
        { apply in_updates_not_terminal in Hin. discriminate. }
        destruct (ending _ _) as [fa|e|]; cbn in Hin.
        { destruct Hin as [Hin|[]]. discriminate. }
        { destruct Hin as [Hin|[]]. inversion Hin. now apply or_else_not_empty. }
        { destruct Hin. }
      * unfold callbacks in Hin.
        rewrite (askQuestionStream_no_body _ JSON_parse fetch _ _ _ question
                   response [] Hf Hok Hb) in Hin.
        destruct Hin as [Hin|[]]. inversion Hin. discriminate.
    + unfold callbacks in Hin.
      rewrite (askQuestionStream_not_ok _ JSON_parse fetch _ _ _ question
                 response [] Hf Hok) in Hin.
      destruct Hin as [Hin|[]]. inversion Hin. apply not_ok_message_not_empty.
  - unfold callbacks in Hin.
    rewrite (askQuestionStream_rejected _ JSON_parse fetch _ _ _ question e [] Hf) in Hin.
    destruct Hin as [Hin|[]]. inversion Hin. now apply or_else_not_empty.
Qed.

(** X3.  A response that is not ok is answered with exactly one [onError] and
    nothing else, whatever its body holds: with the [error] text of the JSON
    body if there is a non-empty one, with [HTTP error! status: ] and the
    status if there is none, and with the parse error if the body is not
    JSON. *)
Theorem response_not_ok_reports_one_error (question : string) (response : Response) :
  fetch question = Normal response ->
  ok response = false ->
  callbacks JSON_parse fetch question =
  [OnError
     match json response with
     | Normal errorData =>
         match error errorData with
         | Some (String c text) => String c text
         | Some EmptyString | None =>
             "HTTP error! status: " ++ Number_toString (status response)
         end
     | Throw e => or_else (message e) "Network error during streaming."
     end].
Proof.
  intros Hf Hok. unfold callbacks.
  rewrite (askQuestionStream_not_ok _ JSON_parse fetch _ _ _ question response [] Hf Hok).
  unfold log_error, not_ok_message. cbn [app].
  destruct (json response) as [[[[|c text]|]]|e]; reflexivity.
Qed.

End StreamExtras.

(* ================================================================== *)
(** * Framing of the body *)
(* ================================================================== *)

Section Framing.
Import Js ApiStream Session Transport.
Local Open Scope string_scope.
Local Open Scope list_scope.

Variable S : Type.
Variable JSON_parse : string -> Completion JSValue.
Variable onStreamUpdate : string -> list string -> S -> S.
Variable onStreamEnd : string -> S -> S.
Variable onError : string -> S -> S.

Lemma read_failure_body_of_lines (reads : list (list string)) :
  read_failure (body_of_lines reads) = None.
Proof.
  unfold body_of_lines. induction reads as [|lines reads IH]; cbn; auto.
Qed.

(** What a call makes of a body of whole lines depends on the lines only. *)
Lemma askQuestionStream_whole_lines (fetch : string -> Completion Response)
      (question : string) (reads : list (list string)) (w : S) :
  forallb (forallb whole_line) reads = true ->
  fetch question = Normal (streaming (body_of_lines reads)) ->
  askQuestionStream JSON_parse fetch onStreamUpdate onStreamEnd onError question w =
  let events := events_of_lines JSON_parse (concat reads) in
  settle onStreamEnd onError (ending events None)
         (world (apply_updates onStreamUpdate (before_end events) (mkFrame "" [] w))).
Proof.
  intros Hw Hf.
  rewrite (askQuestionStream_streaming S JSON_parse fetch _ _ _ question _ _ w
             Hf eq_refl eq_refl).
  rewrite read_failure_body_of_lines. unfold body_of_lines.
  now rewrite (received_whole_lines JSON_parse reads Hw).
Qed.

(** X4.  How the transport cuts the body into reads does not matter as long
    as it cuts between lines: two bodies that carry the same whole lines,
    grouped into reads in different ways, make the call end in the same
    state, with the same callbacks. *)
Theorem reads_cut_between_lines_do_not_matter
        (fetch fetch' : string -> Completion Response) (question : string)
        (reads reads' : list (list string)) (w : S) :
  forallb (forallb whole_line) reads = true ->
  forallb (forallb whole_line) reads' = true ->
  concat reads = concat reads' ->
  fetch question = Normal (streaming (body_of_lines reads)) ->
  fetch' question = Normal (streaming (body_of_lines reads')) ->
  askQuestionStream JSON_parse fetch onStreamUpdate onStreamEnd onError question w =
  askQuestionStream JSON_parse fetch' onStreamUpdate onStreamEnd onError question w.
Proof.
  intros Hw Hw' Hc Hf Hf'.
  rewrite (askQuestionStream_whole_lines fetch question reads w Hw Hf).
  rewrite (askQuestionStream_whole_lines fetch' question reads' w Hw' Hf').
  now rewrite Hc.
Qed.

Lemma trim_not_blank (c : ascii) (s : string) :
  isWhiteSpace c = false -> (trim (String c s) =? "") = false.
Proof.
  intros H. unfold trim. cbn [trimStart]. rewrite H. cbn [trimEnd].
  destruct (trimEnd s); [rewrite H|]; reflexivity.
Qed.

Lemma whole_line_data (line : string) :
  whole_line line = true -> whole_line ("data: " ++ line) = true.
Proof.
  unfold whole_line. intros H. apply andb_true_iff in H. destruct H as [Hn _].
  apply andb_true_iff. split; [exact Hn|].
  cbn [append]. now rewrite trim_not_blank.
Qed.

Lemma event_of_line_data (line : string) :
  startsWith line "data: " = false ->
  event_of_line JSON_parse ("data: " ++ line) = event_of_line JSON_parse line.
Proof.
  intros H. unfold event_of_line. rewrite H.
  assert (Hd : startsWith ("data: " ++ line) "data: " = true)
    by (cbn; now destruct line).
  assert (Hs : substring ("data: " ++ line) 6 = line)
    by (cbn; now destruct line).
  now rewrite Hd, Hs.
Qed.

Lemma events_of_lines_data (lines : list string) :
  forallb (fun line => negb (startsWith line "data: ")) lines = true ->
  events_of_lines JSON_parse (map (append "data: ") lines) =
  events_of_lines JSON_parse lines.
Proof.
  induction lines as [|line lines IH]; cbn [map forallb events_of_lines]; intros H;
    [reflexivity|].
  apply andb_true_iff in H. destruct H as [Hl Hr]. apply negb_true_iff in Hl.
  now rewrite (event_of_line_data line Hl), (IH Hr).
Qed.

Lemma whole_lines_as_data (reads : list (list string)) :
  forallb (forallb whole_line) reads = true ->
  forallb (forallb whole_line) (as_data reads) = true.
Proof.
  unfold as_data.
  induction reads as [|lines reads IH]; cbn [map forallb]; intros H; [reflexivity|].
  apply andb_true_iff in H. destruct H as [Hl Hr].
  rewrite (IH Hr), andb_true_r. clear IH Hr.
  induction lines as [|line lines IH]; cbn [map forallb] in *; [reflexivity|].
  apply andb_true_iff in Hl. destruct Hl as [Hl Hr].
  now rewrite (whole_line_data line Hl), (IH Hr).
Qed.

(** X5.  A body in which every line is preceded by [data: ], as server-sent
    events are, is consumed like the body of the bare lines: the prefix is
    removed from each line, once. *)
Theorem data_prefix_is_removed
        (fetch fetch' : string -> Completion Response) (question : string)
        (reads : list (list string)) (w : S) :
  forallb (forallb whole_line) reads = true ->
  forallb (fun line => negb (startsWith line "data: ")) (concat reads) = true ->
  fetch question = Normal (streaming (body_of_lines reads)) ->
  fetch' question =
    Normal (streaming (body_of_lines (as_data reads))) ->
  askQuestionStream JSON_parse fetch' onStreamUpdate onStreamEnd onError question w =
  askQuestionStream JSON_parse fetch onStreamUpdate onStreamEnd onError question w.
Proof.
  intros Hw Hd Hf Hf'.
  rewrite (askQuestionStream_whole_lines fetch question reads w Hw Hf).
  rewrite (askQuestionStream_whole_lines fetch' question (as_data reads) w
             (whole_lines_as_data reads Hw) Hf').
  unfold as_data. now rewrite <- concat_map, events_of_lines_data.
Qed.

End Framing.

(* ================================================================== *)
(** * What [sendMessage] leaves alone *)
(* ================================================================== *)

Section Conversation.
Import Js ApiStream Session Hook.
Local Open Scope string_scope.
Local Open Scope list_scope.

Variable JSON_parse : string -> Completion JSValue.
Variable fetch : string -> Completion Response.
Variable post : string -> Z -> Api.Settled QuestionResponse.t.
Variable clock : Clock.

Lemma user_id_is_not_assistant_id (a b : string) :
  ("user-" ++ a)%string <> ("assistant-" ++ b)%string.
Proof.
  discriminate.
Qed.

(** A patch of the messages with the assistant's id keeps the number of
    messages and every message with another id. *)
Lemma patch_message_frame (aid : string) (patch : Message.t -> Message.t)
      (prev : list Message.t) :
  length (patch_message aid patch prev) = length prev /\
  forall i m, nth_error prev i = Some m -> Message.id m <> aid ->
              nth_error (patch_message aid patch prev) i = Some m.
Proof.
  split; [apply length_map|].
  intros i m Hm Hid. rewrite nth_error_patch_message, Hm. cbn.
  now destruct (String.eqb_spec (Message.id m) aid).
Qed.

(** The messages with which the request is made, in both variants up to the
    loading message [loading]. *)
Lemma conversation_extended (st : State) (question : string) (loading : Message.t)
      (l : list Message.t) :
  length l = length (messages st ++ [Exchange.userMessage clock question; loading]) ->
  (forall i m, nth_error (messages st ++ [Exchange.userMessage clock question; loading]) i = Some m ->
               Message.id m <> assistant_id clock -> nth_error l i = Some m) ->
  length l = length (messages st) + 2 /\
  nth_error l (length (messages st)) = Some (Exchange.userMessage clock question) /\
  (forall i m, nth_error (messages st) i = Some m ->
               Message.id m <> assistant_id clock -> nth_error l i = Some m).
Proof.
  intros Hlen Hkeep. split; [|split].
  - rewrite Hlen, length_app. reflexivity.
  - apply Hkeep; [|apply user_id_is_not_assistant_id].
    rewrite nth_error_app2, Nat.sub_diag by lia. reflexivity.
  - intros i m Hm Hid. apply Hkeep; [|exact Hid].
    rewrite nth_error_app1; [exact Hm|]. apply nth_error_Some. congruence.
Qed.

(** The frame of the streaming [sendMessage]: of the messages with which the
    request is made, the call keeps the number and every message that has not
    the assistant's id, whatever the network and the parser do. *)
Lemma streaming_frame (question : string) (st : State) :
  isLoading st = false ->
  let final := UseChatStream.sendMessage JSON_parse fetch clock question st in
  let asked := messages (UseChatStream.hook (UseChatStream.asking clock question st)) in
  (length (messages final) = length asked /\
   forall i m, nth_error asked i = Some m -> Message.id m <> assistant_id clock ->
               nth_error (messages final) i = Some m) /\
  isInitialized final = isInitialized st.
Proof.
  intros Hl final. unfold final.
  rewrite (sendMessage_asks JSON_parse fetch clock question st Hl).
  set (l0 := messages (UseChatStream.hook (UseChatStream.asking clock question st))).
  cbv zeta.
  apply (askQuestionStream_preserves UseChatStream.Closure JSON_parse fetch
           (UseChatStream.onStreamUpdate (assistant_id clock))
           (UseChatStream.onStreamEnd clock (assistant_id clock))
           (UseChatStream.onError clock (assistant_id clock))
           (fun c : UseChatStream.Closure =>
              (length (messages (UseChatStream.hook c)) = length l0 /\
               forall i m, nth_error l0 i = Some m -> Message.id m <> assistant_id clock ->
                           nth_error (messages (UseChatStream.hook c)) i = Some m) /\
              isInitialized (UseChatStream.hook c) = isInitialized st));
    [intros content srcs c [[Hlen Hkeep] Hinit]
    |intros fullAnswer c [[Hlen Hkeep] Hinit]
    |intros errorMsg c [[Hlen Hkeep] Hinit]
    |repeat split; auto];
    cbn [UseChatStream.onStreamUpdate UseChatStream.onStreamEnd UseChatStream.onError
         UseChatStream.hook setMessages setIsLoading setApiError messages isInitialized];
    match goal with
    | |- context [patch_message ?aid ?p ?l] =>
        destruct (patch_message_frame aid p l) as [E1 E2]
    end;
    (repeat split; [congruence | | exact Hinit]);
    intros i m Hm Hid; apply E2; auto.
Qed.

(** X6.  The streaming [sendMessage], called on an idle hook, adds exactly two
    messages whatever the network and the parser do: the user's message, which
    stays as it was sent, and the assistant's.  No message is removed, and no
    earlier message is changed unless it has the id of the new assistant
    message; [isInitialized] is not touched. *)
Theorem streaming_sendMessage_keeps_the_conversation (question : string) (st : State) :
  isLoading st = false ->
  let final := UseChatStream.sendMessage JSON_parse fetch clock question st in
  length (messages final) = length (messages st) + 2 /\
  nth_error (messages final) (length (messages st)) =
    Some (Exchange.userMessage clock question) /\
  (forall i m, nth_error (messages st) i = Some m ->
               Message.id m <> assistant_id clock ->
               nth_error (messages final) i = Some m) /\
  isInitialized final = isInitialized st.
Proof.
  intros Hl final.
  destruct (streaming_frame question st Hl) as [[Hlen Hkeep] Hinit].
  destruct (conversation_extended st question _ _ Hlen Hkeep) as (C1 & C2 & C3).
  auto.
Qed.

(** X7.  The request/response [sendMessage], called on an idle hook, does the
    same for every answer of the network, success or failure, and it always
    ends with [isLoading] false. *)
Theorem request_sendMessage_keeps_the_conversation (question : string) (st : State) :
  isLoading st = false ->
  let final := UseChat.sendMessage post clock question st in
  length (messages final) = length (messages st) + 2 /\
  nth_error (messages final) (length (messages st)) = Some (Exchange.userMessage clock question) /\
  (forall i m, nth_error (messages st) i = Some m ->
               Message.id m <> assistant_id clock ->
               nth_error (messages final) i = Some m) /\
  isInitialized final = isInitialized st /\
  isLoading final = false.
Proof.
  intros Hl final. unfold final, UseChat.sendMessage. rewrite Hl. cbv zeta.
  change ("user-" ++ Number_toString (now_user clock))%string
    with (Exchange.user_id clock).
  change (Message.make (Exchange.user_id clock) Message.user question (date_user clock)
            None None None None)
    with (Exchange.userMessage clock question).
  set (loading := Message.make ("assistant-" ++ Number_toString (now_assistant clock))%string
                    Message.assistant "Let me think about that..."%string
                    (date_loading clock) None (Some true) None None).
  assert (Happ : (messages st ++ [Exchange.userMessage clock question]) ++ [loading] =
                 messages st ++ [Exchange.userMessage clock question; loading])
    by now rewrite <- app_assoc.
  destruct (Api.askQuestion post question 5) as [r|e];
    cbn [setIsLoading setApiError setMessages messages isLoading apiError isInitialized];
    rewrite Happ;
    match goal with
    | |- context [patch_message ?aid ?p ?l] =>
        destruct (patch_message_frame aid p l) as [E1 E2]
    end;
    destruct (conversation_extended st question loading _ E1 E2) as (C1 & C2 & C3);
    auto.
Qed.

End Conversation.

(* ================================================================== *)
(** * Errors of the axios variant *)
(* ================================================================== *)

Section AxiosErrors.
Import Js Hook.
Local Open Scope string_scope.
Local Open Scope list_scope.

Lemma detail_or_not_empty (r : Api.ErrorResponse) (fallback : string) :
  fallback <> "" -> Api.detail_or r fallback <> "".
Proof.
  intros H. unfold Api.detail_or.
  destruct (Api.data r) as [d|]; [|exact H].
  destruct (ApiError.detail d); [now apply or_else_not_empty | exact H].
Qed.

Lemma responseError_not_empty (error : Api.AxiosError) :
  message (Api.responseError error) <> "".
Proof.
  unfold Api.responseError. cbn [message].
  destruct (Api.response error) as [r|].
  - destruct (Api.status r =? 503)%Z; [discriminate|].
    destruct (Api.status r =? 400)%Z; apply detail_or_not_empty; discriminate.
  - destruct (Api.request error); discriminate.
Qed.

(** X8.  The error that the response interceptor rejects with always has a
    message, and when the server answered, the message is made of the status
    and the [detail] of the answer alone: for a 503 it is the fixed notice
    whatever the detail, otherwise the detail if there is a non-empty one. *)
Theorem interceptor_error_message (error : Api.AxiosError) :
  message (Api.responseError error) <> "" /\
  forall r, Api.response error = Some r ->
    (Api.status r = 503%Z ->
     message (Api.responseError error) =
       "The AI service is currently unavailable. Please wait a moment and try again.") /\
    (Api.status r <> 503%Z ->
     forall d c text, Api.data r = Some d -> ApiError.detail d = Some (String c text) ->
       message (Api.responseError error) = String c text).
Proof.
  split; [apply responseError_not_empty|].
  intros r Hr. unfold Api.responseError. rewrite Hr. cbn [message]. split.
  - intros ->. reflexivity.
  - intros Hs d c text Hd Ht.
    destruct (Z.eqb_spec (Api.status r) 503); [contradiction|].
    unfold Api.detail_or. rewrite Hd, Ht.
    now destruct (Api.status r =? 400)%Z.
Qed.

Variable post : string -> Z -> Api.Settled QuestionResponse.t.
Variable clock : Clock.

(** X9.  When the request of the request/response [sendMessage] is rejected,
    the assistant's message holds the error notice and the interceptor's
    message, the hook records that message, which is never empty, and is no
    longer loading. *)
Theorem request_failure_shows_error_notice
        (question : string) (st : State) (e : Api.AxiosError) :
  isLoading st = false ->
  post question 5 = Api.Rejected e ->
  let final := UseChat.sendMessage post clock question st in
  let errorMsg := message (Api.responseError e) in
  nth_error (messages final) (answer_index st) =
    Some (Message.make (assistant_id clock) Message.assistant
            "Sorry, I encountered an error while processing your question. Please try again."
            (date_settled clock) None (Some false) (Some errorMsg) None) /\
  apiError final = Some errorMsg /\
  errorMsg <> "" /\
  isLoading final = false.
Proof.
  intros Hl Hp final errorMsg.
  unfold final, UseChat.sendMessage, Api.askQuestion, Api.apiClient_post.
  rewrite Hl, Hp.
  cbn [setIsLoading setApiError setMessages messages isLoading apiError isInitialized].
  rewrite nth_error_patch_message, <- app_assoc. cbn [app].
  rewrite nth_error_answer_index. cbn [option_map Message.id].
  rewrite String.eqb_refl.
  repeat split. apply responseError_not_empty.
Qed.

End AxiosErrors.

(* ================================================================== *)
(** * The welcome message *)
(* ================================================================== *)

Section Welcome.
Import Js Hook Lifecycle.
Local Open Scope string_scope.
Local Open Scope list_scope.

Variable health : Completion HealthResponse.t.

(** X10.  When the effect runs on a hook that is not initialized, whatever
    messages there were and whatever the health check gives, the hook ends
    with exactly one message, the welcome message rewritten in place (the
    fallback ids are never used), not loading and initialized; and that
    message carries an error unless the service reported itself healthy. *)
Theorem initialization_leaves_one_welcome_message (st : State) :
  isInitialized st = false ->
  exists (content : string) (error : option string),
    messages (effect health st) =
      [Message.make "welcome-1" Message.assistant content fixedTimestamp
         None (Some false) error None] /\
    isLoading (effect health st) = false /\
    isInitialized (effect health st) = true /\
    (error = None <->
     exists healthResponse,
       health = Normal healthResponse /\ HealthResponse.status healthResponse = "healthy").
Proof.
  intros Hi. unfold effect, initializeChat. rewrite Hi.
  destruct health as [hr|err].
  - destruct (String.eqb_spec (HealthResponse.status hr) "healthy") as [Hs|Hs].
    + eexists _, None. repeat split; eauto.
    + eexists _, (Some _). repeat split; try discriminate.
      intros (hr' & [= <-] & Hs'). contradiction.
  - eexists _, (Some _). repeat split; try discriminate.
    intros (hr' & [=] & _).
Qed.

(** X11.  The effect initializes once: run again, with whatever health check,
    it changes nothing. *)
Theorem initialization_runs_once (health' : Completion HealthResponse.t) (st : State) :
  effect health' (effect health st) = effect health st.
Proof.
  unfold effect at 1.
  assert (H : isInitialized (effect health st) = true).
  { unfold effect. destruct (isInitialized st) eqn:Hi; [exact Hi|].
    unfold initializeChat. destruct health as [hr|err]; [|reflexivity].
    now destruct (HealthResponse.status hr =? "healthy"). }
  now rewrite H.
Qed.

(** X12.  Clear Chat in the two variants.  The streaming [clearMessages] also
    resets [isInitialized], so the effect runs again and the hook ends in the
    very state of a first mount, whatever was there: the greeting of
    [clearMessages] is replaced and the health check repeated.  The
    request/response [clearMessages] leaves an initialized hook initialized,
    and the effect leaves its greeting. *)
Theorem clear_chat_and_the_effect (now : Date) (st : State) :
  effect health (clearMessages_stream now st) = effect health mounted /\
  (isInitialized st = true ->
   effect health (clearMessages now st) = clearMessages now st /\
   messages (clearMessages now st) = [cleared now]).
Proof.
  split.
  - unfold effect, clearMessages_stream, initializeChat.
    cbn [setIsInitialized setIsLoading setApiError setMessages mounted
         messages isLoading apiError isInitialized].
    destruct health as [hr|err]; [|reflexivity].
    now destruct (HealthResponse.status hr =? "healthy").
  - intros Hi. unfold effect, clearMessages.
    cbn [setIsLoading setApiError setMessages messages isLoading apiError isInitialized].
    now rewrite Hi.
Qed.

End Welcome.

Section HealthFailure.
Import Js Hook Lifecycle.
Local Open Scope string_scope.
Local Open Scope list_scope.

(** X13.  A failed health check in the request/response variant, where
    [checkHealth] goes through the interceptors: the hook records the
    interceptor's message and the welcome message quotes it; the texts that
    the code holds ready for an error without message are never shown. *)
Theorem failed_health_check_quotes_the_interceptor (e : Api.AxiosError) (st : State) :
  isInitialized st = false ->
  let final := effect (ApiEndpoints.checkHealth (Api.Rejected e)) st in
  let errorMsg := message (Api.responseError e) in
  apiError final = Some errorMsg /\
  messages final =
    [Message.make "welcome-1" Message.assistant
       ("I'm unable to connect to the AI service at the moment. Error: "
          ++ errorMsg ++ ". Please try again later.")%string
       fixedTimestamp None (Some false) (Some errorMsg) None].
Proof.
  intros Hi final errorMsg. unfold final, effect, initializeChat. rewrite Hi.
  cbn [ApiEndpoints.checkHealth].
  assert (Hne : forall fallback, or_else errorMsg fallback = errorMsg).
  { intros fallback. unfold or_else.
    destruct (String.eqb_spec errorMsg ""); [|reflexivity].
    now destruct (responseError_not_empty e). }
  fold errorMsg. rewrite !Hne. split; reflexivity.
Qed.

End HealthFailure.

(* ================================================================== *)
(** * The page *)
(* ================================================================== *)

Section LatestMessage.
Import Js Hook Page.
Local Open Scope string_scope.
Local Open Scope list_scope.

Lemma pop_some {A : Type} (b : A) (l : list A) : exists x, pop (b :: l) = Some x.
Proof.
  revert b. induction l as [|c l IH]; intros b; [now exists b|].
  change (pop (b :: c :: l)) with (pop (c :: l)). apply IH.
Qed.

Lemma pop_cons {A : Type} (a : A) (l : list A) :
  pop (a :: l) = match pop l with Some x => Some x | None => Some a end.
Proof.
  destruct l as [|b l]; [reflexivity|].
  change (pop (a :: b :: l)) with (pop (b :: l)).
  now destruct (pop_some b l) as [x ->].
Qed.

Lemma latestAssistantMessage_cons (m : Message.t) (l : list Message.t) :
  latestAssistantMessage (m :: l) =
  match latestAssistantMessage l with
  | Some x => Some x
  | None => if rateable m then Some m else None
  end.
Proof.
  unfold latestAssistantMessage. cbn [filter].
  destruct (rateable m); [apply pop_cons|].
  now destruct (pop (filter rateable l)).
Qed.

Lemma latestAssistantMessage_last (l : list Message.t) (m : Message.t) :
  rateable m = true -> latestAssistantMessage (l ++ [m]) = Some m.
Proof.
  intros H. induction l as [|x l IH]; cbn [app].
  - rewrite latestAssistantMessage_cons. cbn. now rewrite H.
  - now rewrite latestAssistantMessage_cons, IH.
Qed.

(** X14.  The message that the page keeps for feedback is the last message of
    the conversation that comes from the assistant, is not loading and has no
    error; there is none exactly when no message is of that kind. *)
Theorem latest_assistant_message_is_last_rateable (msgs : list Message.t) :
  match latestAssistantMessage msgs with
  | Some m =>
      exists before after,
        msgs = before ++ m :: after /\
        rateable m = true /\
        forallb (fun x => negb (rateable x)) after = true
  | None => forallb (fun x => negb (rateable x)) msgs = true
  end.
Proof.
  induction msgs as [|x msgs IH]; [reflexivity|].
  rewrite latestAssistantMessage_cons.
  destruct (latestAssistantMessage msgs) as [m|].
  - destruct IH as (before & after & -> & Hm & Ha).
    exists (x :: before), after. auto.
  - destruct (rateable x) eqn:Hx.
    + exists [], msgs. auto.
    + cbn [forallb]. now rewrite Hx, IH.
Qed.

End LatestMessage.

Section Feedback.
Import Js ApiStream Session Hook.
Local Open Scope string_scope.
Local Open Scope list_scope.

Variable JSON_parse : string -> Completion JSValue.
Variable fetch : string -> Completion Response.
Variable clock : Clock.

Lemma Number_toString_inj (a b : Z) : Number_toString a = Number_toString b -> a = b.
Proof.
  unfold Number_toString. intros H.
  assert (Hn : forall z, NilZero.int_of_string (NilZero.string_of_int (Z.to_int z)) =
                         Some (Z.to_int z)).
  { intros z. apply NilZero.isi; destruct z; cbn; try discriminate;
      intros [= Hp]; now apply DecimalPos.Unsigned.to_uint_nonnil in Hp. }
  apply DecimalZ.to_int_inj.
  assert (Hs : Some (Z.to_int a) = Some (Z.to_int b)) by now rewrite <- !Hn, H.
  now inversion Hs.
Qed.

Lemma replace_assistant_prefix (t : string) :
  Page.replace ("assistant-" ++ t)%string "assistant-" "user-" = ("user-" ++ t)%string.
Proof.
  cbn. now destruct t.
Qed.

(** The messages when a stream has ended: the earlier ones, patched where
    they have the assistant's id, the user's message and the answer. *)
Lemma streaming_ended_messages (question : string) (st : State)
      (response : Response) (reader : Reader) (fa : string) :
  isLoading st = false ->
  fetch question = Normal response ->
  ok response = true ->
  body response = Some reader ->
  first_end (received JSON_parse reader) = Some fa ->
  exists (h : Message.t -> Message.t) (a : Message.t),
    (forall m, Message.id (h m) = Message.id m) /\
    messages (UseChatStream.sendMessage JSON_parse fetch clock question st) =
      map h (messages st) ++ [Exchange.userMessage clock question; a] /\
    Message.id a = assistant_id clock /\
    Message.content a = fa /\
    Page.rateable a = true.
Proof.
  intros Hl Hf Hok Hb Hend.
  rewrite (sendMessage_streaming JSON_parse fetch clock question st response reader
             Hl Hf Hok Hb).
  unfold ending. rewrite Hend.
  set (pre := before_end (received JSON_parse reader)).
  assert (Hpre : first_end pre = None) by apply first_end_before_end.
  cbn [settle UseChatStream.onStreamEnd UseChatStream.hook setIsLoading setMessages
       messages].
  rewrite (messages_apply_updates (assistant_id clock) pre _ Hpre).
  rewrite patch_message_twice by (intros m; now destruct pre).
  cbn [world UseChatStream.hook UseChatStream.asking setIsLoading setApiError
       setMessages messages].
  unfold patch_message. rewrite map_app.
  eexists _, _. split; [|split].
  2: { f_equal. cbn [map Message.id]. rewrite String.eqb_refl. reflexivity. }
  - intros m. cbv beta. destruct (Message.id m =? assistant_id clock); [|reflexivity].
    cbn [Message.id]. now destruct pre.
  - cbn. repeat split; now destruct pre.
Qed.

Lemma find_after (p : Message.t -> bool) (h : Message.t -> Message.t)
      (olds rest : list Message.t) :
  (forall m, In m olds -> p (h m) = false) ->
  find p (map h olds ++ rest) = find p rest.
Proof.
  intros H. induction olds as [|m olds IH]; [reflexivity|].
  cbn [map app find]. rewrite (H m) by now left.
  apply IH. intros x Hx. apply H. now right.
Qed.

(** X15.  Question and answer are paired through their ids.  After an
    exchange that ended with an end event, if the two [Date.now()] of the ids
    gave the same millisecond, no earlier message has the user's id and the
    question is not empty, then the message kept for feedback is the answer,
    and the feedback built for it carries the question as it was asked and
    the full answer. *)
Theorem feedback_pairs_answer_with_question
        (question : string) (st : State) (response : Response) (reader : Reader)
        (fa : string) :
  isLoading st = false ->
  fetch question = Normal response ->
  ok response = true ->
  body response = Some reader ->
  first_end (received JSON_parse reader) = Some fa ->
  now_user clock = now_assistant clock ->
  (forall m, In m (messages st) -> Message.id m <> Exchange.user_id clock) ->
  question <> "" ->
  let final := UseChatStream.sendMessage JSON_parse fetch clock question st in
  exists a : Message.t,
    Page.latestAssistantMessage (messages final) = Some a /\
    forall p : Page.State,
      Page.chat p = final ->
      FeedbackData.question (Page.feedbackData_for a p) = question /\
      FeedbackData.answer (Page.feedbackData_for a p) = fa.
Proof.
  intros Hl Hf Hok Hb Hend Hnow Hfresh Hq final.
  destruct (streaming_ended_messages question st response reader fa Hl Hf Hok Hb Hend)
    as (h & a & Hh & Hm & Hid & Hc & Hr).
  fold final in Hm. exists a. split.
  - rewrite Hm.
    change (map h (messages st) ++ [Exchange.userMessage clock question; a])
      with (map h (messages st) ++ [Exchange.userMessage clock question] ++ [a]).
    rewrite app_assoc. now apply latestAssistantMessage_last.
  - intros p Hp. unfold Page.feedbackData_for. cbn [FeedbackData.question FeedbackData.answer].
    split; [|exact Hc].
    rewrite Hp, Hm, Hid. unfold assistant_id. rewrite replace_assistant_prefix, <- Hnow.
    rewrite find_after.
    + cbn [find Exchange.userMessage Message.id]. unfold Exchange.user_id.
      rewrite String.eqb_refl.
      change (Message.content (Exchange.userMessage clock question)) with question.
      unfold or_else. now destruct (String.eqb_spec question "").
    + intros m Hin. rewrite Hh. apply String.eqb_neq. now apply Hfresh.
Qed.

(** X16.  The pairing is lost when the clock ticks between the two
    [Date.now()]: if they differ and no earlier message has the id that the
    answer points to, the feedback for the answer carries [N/A] for the
    question. *)
Theorem feedback_question_lost_on_clock_tick
        (question : string) (st : State) (response : Response) (reader : Reader)
        (fa : string) :
  isLoading st = false ->
  fetch question = Normal response ->
  ok response = true ->
  body response = Some reader ->
  first_end (received JSON_parse reader) = Some fa ->
  now_user clock <> now_assistant clock ->
  (forall m, In m (messages st) ->
             Message.id m <> ("user-" ++ Number_toString (now_assistant clock))%string) ->
  let final := UseChatStream.sendMessage JSON_parse fetch clock question st in
  exists a : Message.t,
    Page.latestAssistantMessage (messages final) = Some a /\
    forall p : Page.State,
      Page.chat p = final ->
      FeedbackData.question (Page.feedbackData_for a p) = "N/A" /\
      FeedbackData.answer (Page.feedbackData_for a p) = fa.
Proof.
  intros Hl Hf Hok Hb Hend Hnow Hfresh final.
  destruct (streaming_ended_messages question st response reader fa Hl Hf Hok Hb Hend)
    as (h & a & Hh & Hm & Hid & Hc & Hr).
  fold final in Hm. exists a. split.
  - rewrite Hm.
    change (map h (messages st) ++ [Exchange.userMessage clock question; a])
      with (map h (messages st) ++ [Exchange.userMessage clock question] ++ [a]).
    rewrite app_assoc. now apply latestAssistantMessage_last.
  - intros p Hp. unfold Page.feedbackData_for. cbn [FeedbackData.question FeedbackData.answer].
    split; [|exact Hc].
    rewrite Hp, Hm, Hid. unfold assistant_id at 1. rewrite replace_assistant_prefix.
    rewrite find_after.
    + cbn [find Exchange.userMessage Message.id]. unfold Exchange.user_id.
      destruct (String.eqb_spec ("user-" ++ Number_toString (now_user clock))%string
                                ("user-" ++ Number_toString (now_assistant clock))%string)
        as [E|_].
      { exfalso. apply Hnow. apply Number_toString_inj. now inversion E. }
      rewrite Hid. unfold assistant_id. reflexivity.
    + intros m Hin. rewrite Hh. apply String.eqb_neq. now apply Hfresh.
Qed.

End Feedback.

Section Controls.
Import Js ApiStream Session Hook.
Local Open Scope string_scope.
Local Open Scope list_scope.

Variable JSON_parse : string -> Completion JSValue.
Variable fetch : string -> Completion Response.
Variable clock : Clock.

(** X17.  The Send button and the guards behind it agree: the button is
    disabled exactly when submitting the form would leave the chat as it is,
    because the question is blank or the hook is loading; when it is enabled,
    submitting does change the chat. *)
Theorem send_button_disabled_iff_submit_is_idle (p : Page.State) :
  Page.disabled Page.SendButton p = true <->
  Page.chat (Page.handleSubmit (UseChatStream.sendMessage JSON_parse fetch clock) p)
  = Page.chat p.
Proof.
  unfold Page.handleSubmit, Page.disabled.
  destruct (trim (Page.currentQuestion p) =? "") eqn:Hblank.
  - rewrite orb_true_r. cbn [negb]. split; reflexivity.
  - rewrite orb_false_r. cbn [negb Page.chat].
    destruct (isLoading (Page.chat p)) eqn:Hl.
    + split; [intros _|reflexivity].
      unfold UseChatStream.sendMessage. now rewrite Hl.
    + split; [discriminate|]. intros H. exfalso.
      destruct (streaming_frame JSON_parse fetch clock (Page.currentQuestion p)
                  (Page.chat p) Hl) as [[Hlen _] _].
      rewrite H in Hlen. cbn in Hlen. rewrite length_app in Hlen. cbn in Hlen. lia.
Qed.

(** X18.  A body that is exhausted before an end event freezes the page: the
    hook stays loading, so the question input, the Send button, the sample
    questions and Clear Chat are all disabled, and a submit changes nothing in
    the chat. *)
Theorem exhausted_stream_freezes_the_page
        (question : string) (st : State) (response : Response) (reader : Reader)
        (p : Page.State) :
  isLoading st = false ->
  fetch question = Normal response ->
  ok response = true ->
  body response = Some reader ->
  read_failure reader = None ->
  first_end (received JSON_parse reader) = None ->
  Page.chat p = UseChatStream.sendMessage JSON_parse fetch clock question st ->
  (forall c : Page.Control, Page.disabled c p = true) /\
  Page.chat (Page.handleSubmit (UseChatStream.sendMessage JSON_parse fetch clock) p)
  = Page.chat p.
Proof.
  intros Hl Hf Hok Hb Hrf Hend Hp.
  destruct (exhausted_without_terminal JSON_parse fetch clock question st response reader
              Hl Hf Hok Hb Hrf Hend) as (_ & _ & Hloading).
  rewrite <- Hp in Hloading. split.
  - intros c. destruct c; cbn; now rewrite Hloading.
  - unfold Page.handleSubmit.
    destruct (trim (Page.currentQuestion p) =? ""); cbn [negb Page.chat]; [reflexivity|].
    unfold UseChatStream.sendMessage. now rewrite Hloading.
Qed.

(** X19.  The sources of the metadata event reach the [sources] of the
    assistant's message only with the end event: [onStreamUpdate] writes them
    to the property [source].  When the body is exhausted or a read fails
    before an end event, the message keeps the empty [sources] it was created
    with, and [source] holds the sources of the last metadata event. *)
Theorem sources_are_set_only_at_the_end
        (question : string) (st : State) (response : Response) (reader : Reader) :
  isLoading st = false ->
  fetch question = Normal response ->
  ok response = true ->
  body response = Some reader ->
  first_end (received JSON_parse reader) = None ->
  received JSON_parse reader <> [] ->
  exists m : Message.t,
    nth_error (messages (UseChatStream.sendMessage JSON_parse fetch clock question st))
              (answer_index st) = Some m /\
    Message.sources m = Some [] /\
    Message.source m = Some (latest_sources [] (received JSON_parse reader)).
Proof.
  intros Hl Hf Hok Hb Hend Hne.
  rewrite (sendMessage_streaming JSON_parse fetch clock question st response reader
             Hl Hf Hok Hb).
  unfold ending. rewrite Hend, (before_end_no_end _ Hend).
  destruct (asking_apply_updates clock question st (received JSON_parse reader) Hend)
    as (A1 & _).
  destruct (received JSON_parse reader) as [|event events]; [contradiction|].
  destruct (read_failure reader) as [e|]; cbn [settle].
  - destruct (onError_answer clock (or_else (message e) "Network error during streaming.")
                _ _ _ A1 eq_refl) as (E1 & _).
    eexists. split; [exact E1|]. split; reflexivity.
  - eexists. split; [exact A1|]. split; reflexivity.
Qed.

End Controls.

(* ================================================================== *)
(** * The feedback form *)
(* ================================================================== *)

Section FeedbackForm.
Import Js.
Local Open Scope string_scope.
Local Open Scope list_scope.

Variable post : FeedbackData.t -> Api.Settled unit.

(** X20.  [handleFeedbackSubmit] leaves the chat and the question alone,
    posts at most one feedback and raises exactly one alert.  What it posts
    is the feedback data of [lastAssistantMessage], with a rating other than
    0.  The form is reset exactly when a feedback was posted and the request
    succeeded; after a failed request the rating and the text are kept and
    the alert quotes the interceptor's message. *)
Theorem feedback_submit_posts_once_and_keeps_failed_form (p : Page.State) :
  let p' := Page.handleFeedbackSubmit (ApiEndpoints.submitFeedback post) p in
  Page.chat p' = Page.chat p /\
  Page.currentQuestion p' = Page.currentQuestion p /\
  exists (posted : list FeedbackData.t) (text : string),
    Page.effects p' = Page.effects p ++ map Page.SubmitFeedback posted ++ [Page.Alert text] /\
    (length posted <= 1)%nat /\
    (forall d, In d posted ->
       FeedbackData.rating d <> 0%Z /\
       exists last, Page.lastAssistantMessage p = Some last /\
                    d = Page.feedbackData_for last p) /\
    ((exists d, posted = [d] /\ post d = Api.Fulfilled tt) ->
       Page.feedbackRating p' = 0%Z /\ Page.feedbackText p' = "" /\
       Page.showFeedbackForm p' = false) /\
    ((forall d, posted = [d] -> post d <> Api.Fulfilled tt) ->
       Page.feedbackRating p' = Page.feedbackRating p /\
       Page.feedbackText p' = Page.feedbackText p /\
       Page.showFeedbackForm p' = Page.showFeedbackForm p) /\
    (forall d e, posted = [d] -> post d = Api.Rejected e ->
       text = ("Failed to submit feedback: " ++ message (Api.responseError e))%string).
Proof.
  unfold Page.handleFeedbackSubmit.
  destruct (Page.lastAssistantMessage p) as [last|] eqn:Hlast.
  - destruct (Page.feedbackRating p =? 0)%Z eqn:Hr.
    + cbv zeta. cbn [Page.alert Page.chat Page.currentQuestion Page.effects].
      split; [reflexivity|split; [reflexivity|]].
      exists [], "Please provide a rating and ensure there is an AI response to rate.".
      split; [reflexivity|]. split; [cbn; lia|]. split; [intros d []|].
      split; [intros (d & Hd & _); discriminate|].
      split; [intros _; repeat split|].
      intros d e Hd. discriminate.
    + apply Z.eqb_neq in Hr. cbv zeta. unfold ApiEndpoints.submitFeedback.
      destruct (post (Page.feedbackData_for last p)) as [[]|e] eqn:Hpost;
        cbn [Page.alert Page.chat Page.currentQuestion Page.effects Page.feedbackRating
             Page.feedbackText Page.showFeedbackForm Page.lastAssistantMessage];
        (split; [reflexivity|split; [reflexivity|]]).
      * exists [Page.feedbackData_for last p], "Thank you for your feedback!".
        split; [now rewrite <- app_assoc|]. split; [cbn; lia|].
        split; [intros d [<-|[]]; split; [exact Hr|now exists last]|].
        split; [intros _; repeat split|].
        split; [intros H; now destruct (H _ eq_refl)|].
        intros d e Hd. injection Hd as <-. rewrite Hpost. discriminate.
      * exists [Page.feedbackData_for last p],
               ("Failed to submit feedback: " ++ message (Api.responseError e))%string.
        split; [now rewrite <- app_assoc|]. split; [cbn; lia|].
        split; [intros d [<-|[]]; split; [exact Hr|now exists last]|].
        split; [intros (d & Hd & Hf); injection Hd as <-; rewrite Hpost in Hf; discriminate|].
        split; [intros _; repeat split|].
        intros d e' Hd He. injection Hd as <-. rewrite Hpost in He. now injection He as <-.
  - cbv zeta. cbn [Page.alert Page.chat Page.currentQuestion Page.effects].
    split; [reflexivity|split; [reflexivity|]].
    exists [], "Please provide a rating and ensure there is an AI response to rate.".
    split; [reflexivity|]. split; [cbn; lia|]. split; [intros d []|].
    split; [intros (d & Hd & _); discriminate|].
    split; [intros _; repeat split|].
    intros d e Hd. discriminate.
Qed.

End FeedbackForm.

(* ================================================================== *)
(** * The further theorems on the demo session *)
(* ================================================================== *)

Section OnTheDemoSessionAgain.
Import Js ApiStream Session Hook Lifecycle.
Local Open Scope string_scope.
Local Open Scope list_scope.

Lemma terminal_callback_is_last_witness :
  let cs := callbacks Json.JSON_parse (Demo.fetch_of Demo.reader_with_late_chunk)
              Demo.question in
  cs = firstn 4 cs ++ OnStreamEnd "Nigeria gained independence in 1960." :: skipn 5 cs /\
  skipn 5 cs = [].
Proof.
  intros cs.
  assert (H : cs = firstn 4 cs
                ++ OnStreamEnd "Nigeria gained independence in 1960." :: skipn 5 cs)
    by (vm_compute; reflexivity).
  split; [exact H|].
  apply (terminal_callback_is_last Json.JSON_parse
           (Demo.fetch_of Demo.reader_with_late_chunk) Demo.question
           (firstn 4 cs) (skipn 5 cs) (OnStreamEnd "Nigeria gained independence in 1960.")
           H eq_refl).
Defined.

Lemma onError_message_is_not_empty_witness :
  In (OnError "network error")
     (callbacks Json.JSON_parse (Demo.fetch_of Demo.failing_reader) Demo.question) /\
  "network error" <> "".
Proof.
  assert (H : In (OnError "network error")
                 (callbacks Json.JSON_parse (Demo.fetch_of Demo.failing_reader)
                    Demo.question))
    by (vm_compute; do 3 right; left; reflexivity).
  split; [exact H|].
  apply (onError_message_is_not_empty Json.JSON_parse (Demo.fetch_of Demo.failing_reader)
           Demo.question "network error" H).
Defined.

Lemma response_not_ok_reports_one_error_witness :
  callbacks Json.JSON_parse Cases.fetch_not_ok Demo.question =
  [OnError "The vector index is not loaded."].
Proof.
  apply (response_not_ok_reports_one_error Json.JSON_parse Cases.fetch_not_ok
           Demo.question Cases.not_ok eq_refl eq_refl).
Defined.

Lemma reads_cut_between_lines_do_not_matter_witness :
  concat Cases.reads = concat Cases.regrouped /\
  callbacks Json.JSON_parse (Cases.fetch_lines Cases.reads) Demo.question =
  callbacks Json.JSON_parse (Cases.fetch_lines Cases.regrouped) Demo.question.
Proof.
  split; [reflexivity|].
  apply (reads_cut_between_lines_do_not_matter (list Callback) Json.JSON_parse
           log_update log_end log_error
           (Cases.fetch_lines Cases.reads) (Cases.fetch_lines Cases.regrouped)
           Demo.question Cases.reads Cases.regrouped []);
    vm_compute; reflexivity.
Defined.

Lemma data_prefix_is_removed_witness :
  callbacks Json.JSON_parse (Cases.fetch_lines (Transport.as_data Cases.reads))
    Demo.question =
  callbacks Json.JSON_parse (Cases.fetch_lines Cases.reads) Demo.question.
Proof.
  apply (data_prefix_is_removed (list Callback) Json.JSON_parse
           log_update log_end log_error
           (Cases.fetch_lines Cases.reads)
           (Cases.fetch_lines (Transport.as_data Cases.reads))
           Demo.question Cases.reads []);
    vm_compute; reflexivity.
Defined.

Lemma streaming_sendMessage_keeps_the_conversation_witness :
  let final := UseChatStream.sendMessage Json.JSON_parse (Demo.fetch_of Demo.reader)
                 Demo.clock Demo.question Demo.idle in
  length (messages final) = length (messages Demo.idle) + 2 /\
  nth_error (messages final) (length (messages Demo.idle)) =
    Some (Exchange.userMessage Demo.clock Demo.question) /\
  (forall i m, nth_error (messages Demo.idle) i = Some m ->
               Message.id m <> assistant_id Demo.clock ->
               nth_error (messages final) i = Some m) /\
  isInitialized final = isInitialized Demo.idle.
Proof.
  apply (streaming_sendMessage_keeps_the_conversation Json.JSON_parse
           (Demo.fetch_of Demo.reader) Demo.clock Demo.question Demo.idle eq_refl).
Defined.

Lemma request_sendMessage_keeps_the_conversation_witness :
  let final := UseChat.sendMessage Demo.post Demo.clock Demo.question Demo.idle in
  length (messages final) = length (messages Demo.idle) + 2 /\
  nth_error (messages final) (length (messages Demo.idle)) =
    Some (Exchange.userMessage Demo.clock Demo.question) /\
  (forall i m, nth_error (messages Demo.idle) i = Some m ->
               Message.id m <> assistant_id Demo.clock ->
               nth_error (messages final) i = Some m) /\
  isInitialized final = isInitialized Demo.idle /\
  isLoading final = false.
Proof.
  apply (request_sendMessage_keeps_the_conversation Demo.post Demo.clock Demo.question
           Demo.idle eq_refl).
Defined.

Lemma request_failure_shows_error_notice_witness :
  let final := UseChat.sendMessage Cases.rejecting_post Demo.clock Demo.question Demo.idle in
  let errorMsg :=
    "The AI service is currently unavailable. Please wait a moment and try again." in
  nth_error (messages final) (answer_index Demo.idle) =
    Some (Message.make (assistant_id Demo.clock) Message.assistant
            "Sorry, I encountered an error while processing your question. Please try again."
            (date_settled Demo.clock) None (Some false) (Some errorMsg) None) /\
  apiError final = Some errorMsg /\
  errorMsg <> "" /\
  isLoading final = false.
Proof.
  apply (request_failure_shows_error_notice Cases.rejecting_post Demo.clock Demo.question
           Demo.idle Cases.unavailable eq_refl eq_refl).
Defined.

Lemma initialization_leaves_one_welcome_message_witness :
  exists (content : string) (error : option string),
    messages (effect (Normal Cases.healthy) mounted) =
      [Message.make "welcome-1" Message.assistant content fixedTimestamp
         None (Some false) error None] /\
    isLoading (effect (Normal Cases.healthy) mounted) = false /\
    isInitialized (effect (Normal Cases.healthy) mounted) = true /\
    (error = None <->
     exists healthResponse,
       Normal Cases.healthy = Normal healthResponse /\
       HealthResponse.status healthResponse = "healthy").
Proof.
  apply (initialization_leaves_one_welcome_message (Normal Cases.healthy) mounted eq_refl).
Defined.

Lemma failed_health_check_quotes_the_interceptor_witness :
  let final := effect (ApiEndpoints.checkHealth (Api.Rejected Cases.unavailable)) mounted in
  let errorMsg :=
    "The AI service is currently unavailable. Please wait a moment and try again." in
  apiError final = Some errorMsg /\
  messages final =
    [Message.make "welcome-1" Message.assistant
       ("I'm unable to connect to the AI service at the moment. Error: "
          ++ errorMsg ++ ". Please try again later.")%string
       fixedTimestamp None (Some false) (Some errorMsg) None].
Proof.
  apply (failed_health_check_quotes_the_interceptor Cases.unavailable mounted eq_refl).
Defined.

Lemma feedback_pairs_answer_with_question_witness :
  let final := UseChatStream.sendMessage Json.JSON_parse (Demo.fetch_of Demo.reader)
                 Demo.clock Demo.question Demo.idle in
  exists a : Message.t,
    Page.latestAssistantMessage (messages final) = Some a /\
    forall p : Page.State,
      Page.chat p = final ->
      FeedbackData.question (Page.feedbackData_for a p) = Demo.question /\
      FeedbackData.answer (Page.feedbackData_for a p)
      = "Nigeria gained independence in 1960.".
Proof.
  apply (feedback_pairs_answer_with_question Json.JSON_parse (Demo.fetch_of Demo.reader)
           Demo.clock Demo.question Demo.idle (streaming Demo.reader) Demo.reader
           "Nigeria gained independence in 1960.");
    try reflexivity.
  - intros m [<-|[]]. discriminate.
  - discriminate.
Defined.

Lemma feedback_question_lost_on_clock_tick_witness :
  let final := UseChatStream.sendMessage Json.JSON_parse (Demo.fetch_of Demo.reader)
                 Cases.ticking_clock Demo.question Demo.idle in
  exists a : Message.t,
    Page.latestAssistantMessage (messages final) = Some a /\
    forall p : Page.State,
      Page.chat p = final ->
      FeedbackData.question (Page.feedbackData_for a p) = "N/A" /\
      FeedbackData.answer (Page.feedbackData_for a p)
      = "Nigeria gained independence in 1960.".
Proof.
  apply (feedback_question_lost_on_clock_tick Json.JSON_parse (Demo.fetch_of Demo.reader)
           Cases.ticking_clock Demo.question Demo.idle (streaming Demo.reader) Demo.reader
           "Nigeria gained independence in 1960.");
    try reflexivity.
  - discriminate.
  - intros m [<-|[]]. discriminate.
Defined.

Lemma exhausted_stream_freezes_the_page_witness :
  let p := Cases.page_of
             (UseChatStream.sendMessage Json.JSON_parse
                (Demo.fetch_of Demo.exhausted_reader) Demo.clock Demo.question Demo.idle) in
  (forall c : Page.Control, Page.disabled c p = true) /\
  Page.chat (Page.handleSubmit
               (UseChatStream.sendMessage Json.JSON_parse
                  (Demo.fetch_of Demo.exhausted_reader) Demo.clock) p)
  = Page.chat p.
Proof.
  apply (exhausted_stream_freezes_the_page Json.JSON_parse
           (Demo.fetch_of Demo.exhausted_reader) Demo.clock Demo.question Demo.idle
           (streaming Demo.exhausted_reader) Demo.exhausted_reader);
    reflexivity.
Defined.

Lemma sources_are_set_only_at_the_end_witness :
  exists m : Message.t,
    nth_error (messages (UseChatStream.sendMessage Json.JSON_parse
                           (Demo.fetch_of Demo.exhausted_reader) Demo.clock
                           Demo.question Demo.idle))
              (answer_index Demo.idle) = Some m /\
    Message.sources m = Some [] /\
    Message.source m = Some ["history.pdf"; "https://en.wikipedia.org/wiki/Nigeria"].
Proof.
  apply (sources_are_set_only_at_the_end Json.JSON_parse
           (Demo.fetch_of Demo.exhausted_reader) Demo.clock Demo.question Demo.idle
           (streaming Demo.exhausted_reader) Demo.exhausted_reader);
    try reflexivity.
  vm_compute. discriminate.
Defined.

End OnTheDemoSessionAgain.
